(** * fbia.py: Facebook Instant Articles insights collector

    A shallow embedding of [fbia.py].  The script is a sequence of blocking
    calls to the outside world (HTTP through [requests], a SQLite store
    through [dataset], the terminal through [print]) glued together by a
    little pure Python: subscripting of decoded JSON, [int()], [str.split]
    and a summing loop.  The pure part is embedded as functions on an
    inductive type of Python values; the effects are threaded through a
    state-and-exception monad over an explicit [world].

    What the script does not own is modelled as follows.
    - The network is a function of the world: it answers a request, given
      the requests made before it, with a response or with an exception.
      A response carries its raw [text] and the result of its [.json()].
    - [xmltodict.parse] is a parameter of [get_facebook_feed].
    - A [dataset] table is the list of its rows, a row a dict from column
      name to value.  [find_one] returns the first row that has the given
      value in the given column.  A write goes to the engine under the
      tables (SQLite, through SQLAlchemy), which is a function of the world
      like the network: given the writes made before, it answers a write
      with the row as it keeps it (the guid ['101'] becomes the integer 101
      in the INTEGER PRIMARY KEY column [id] of the insights table) or with
      the exception it raises (a guid that is no integer, a value it cannot
      bind), and then nothing is stored.  [insert] appends the kept row;
      [upsert] updates the non-key columns of every row that agrees with
      the kept row on the key columns, and inserts it when there is none.
    - A [print(format % args)] is recorded as the pair of [format] and
      [args]; the text is not rendered.
    - [sys.exit(n)] raises [SystemExit n]; an exception that no handler
      catches ends the run, with the world as it was when it was raised.
    - [dataset.freeze] and Slack are parameters of the whole run: the text
      of the CSV export of a table, and the answer of Slack to an upload.

    The builtins are those of Python 3 (3.6 or later, for [int()] on a
    string). *)

From Stdlib Require Import ZArith List String Ascii Bool Lia SpecFloat.
From Stdlib Require Import DecimalString.
From Stdlib Require Import Permutation.
Import ListNotations.

Local Open Scope string_scope.
Local Open Scope Z_scope.

(** ** Python values, exceptions and the builtins the script uses *)

Module Py.

(** Exceptions.  [sys.exit(n)] raises [SystemExit(n)], which no handler of
    the script catches, so it ends the process with status [n]. *)
Inductive exn : Type :=
| KeyError
| IndexError
| TypeError
| ValueError
| OverflowError
| SystemExit (code : Z)
| LibraryError (name : string).

Inductive outcome (A : Type) : Type :=
| Ret (a : A)
| Raise (e : exn).
Arguments Ret {A} a.
Arguments Raise {A} e.

Definition obind {A B} (o : outcome A) (f : A -> outcome B) : outcome B :=
  match o with
  | Ret a => f a
  | Raise e => Raise e
  end.

(** The values [json.loads] and [xmltodict.parse] build.  A float is an
    IEEE double, held as its [spec_float] value; a character is a code
    point below 256; a dict is its items in order, looked up by first
    match. *)
#[local] Set Warnings "-register-all".

Inductive pyval : Type :=
| PNone
| PBool (b : bool)
| PInt (z : Z)
| PFloat (f : spec_float)
| PStr (s : string)
| PList (l : list pyval)
| PDict (d : list (string * pyval)).

Definition dict : Type := list (string * pyval).

Fixpoint lookup {V : Type} (k : string) (d : list (string * V)) : option V :=
  match d with
  | [] => None
  | (k', v) :: d' => if String.eqb k k' then Some v else lookup k d'
  end.

(** [d[k] = v] on a dict: replaces the value in place, or appends the key. *)
Fixpoint dict_set {V : Type} (k : string) (v : V) (d : list (string * V))
  : list (string * V) :=
  match d with
  | [] => [(k, v)]
  | (k', v') :: d' =>
      if String.eqb k k' then (k', v) :: d' else (k', v') :: dict_set k v d'
  end.

(** [obj[key]] for a string key. *)
Definition getitem (key : string) (obj : pyval) : outcome pyval :=
  match obj with
  | PDict d =>
      match lookup key d with
      | Some v => Ret v
      | None => Raise KeyError
      end
  | _ => Raise TypeError
  end.

Fixpoint chars (s : string) : list pyval :=
  match s with
  | EmptyString => []
  | String c s' => PStr (String c EmptyString) :: chars s'
  end.

(** What [for x in obj] ranges over. *)
Definition iter (obj : pyval) : outcome (list pyval) :=
  match obj with
  | PList l => Ret l
  | PDict d => Ret (map (fun kv => PStr (fst kv)) d)
  | PStr s => Ret (chars s)
  | _ => Raise TypeError
  end.

(** *** [int()] *)

(** The characters that [int()] strips from both ends of a string before
    it reads it: the ASCII white space (tab to carriage return, and the
    space), and the white space above it, NEL and the no-break space.  The
    separators 28 to 31 are not among them. *)
Definition is_space (c : ascii) : bool :=
  let n := N_of_ascii c in
  (((9 <=? n) && (n <=? 13)) || (n =? 32) || (n =? 133) || (n =? 160))%N.

Definition is_digit (c : ascii) : bool :=
  let n := N_of_ascii c in ((48 <=? n) && (n <=? 57))%N.

Definition digit_value (c : ascii) : Z := Z.of_N (N_of_ascii c) - 48.

Fixpoint lstrip (s : string) : string :=
  match s with
  | EmptyString => EmptyString
  | String c s' => if is_space c then lstrip s' else s
  end.

Fixpoint rstrip (s : string) : string :=
  match s with
  | EmptyString => EmptyString
  | String c s' =>
      match rstrip s' with
      | EmptyString => if is_space c then EmptyString else String c EmptyString
      | r => String c r
      end
  end.

Definition strip (s : string) : string := lstrip (rstrip s).

(** Decimal digits, single underscores allowed between two digits (since
    Python 3.6). *)
Fixpoint digits (s : string) (acc : Z) (after_digit : bool) : option Z :=
  match s with
  | EmptyString => if after_digit then Some acc else None
  | String c s' =>
      if is_digit c then digits s' (10 * acc + digit_value c) true
      else if Ascii.eqb c "_"%char && after_digit then digits s' acc false
      else None
  end.

Definition int_of_string (s : string) : outcome Z :=
  let body :=
    match strip s with
    | String "-"%char r => option_map Z.opp (digits r 0 false)
    | String "+"%char r => digits r 0 false
    | r => digits r 0 false
    end in
  match body with
  | Some z => Ret z
  | None => Raise ValueError
  end.

(** [int(x)] on a float truncates towards zero. *)
Definition int_of_float (f : spec_float) : outcome Z :=
  match f with
  | S754_zero _ => Ret 0
  | S754_infinity _ => Raise OverflowError
  | S754_nan => Raise ValueError
  | S754_finite s m e =>
      let a := if 0 <=? e then Z.pos m * 2 ^ e else Z.pos m / 2 ^ (- e) in
      Ret (if s then - a else a)
  end.

Definition int (v : pyval) : outcome Z :=
  match v with
  | PInt z => Ret z
  | PBool b => Ret (if b then 1 else 0)
  | PFloat f => int_of_float f
  | PStr s => int_of_string s
  | PNone | PList _ | PDict _ => Raise TypeError
  end.

(** *** [str.split(sep)] for a one-character separator *)

Fixpoint split (sep : ascii) (s : string) : list string :=
  match s with
  | EmptyString => [EmptyString]
  | String c s' =>
      if Ascii.eqb c sep then EmptyString :: split sep s'
      else
        match split sep s' with
        | piece :: rest => String c piece :: rest
        | [] => [String c EmptyString]
        end
  end.

(** [l[i]] on a list of strings. *)
Definition index (i : nat) (l : list string) : outcome string :=
  match nth_error l i with
  | Some s => Ret s
  | None => Raise IndexError
  end.

(** *** Structural equality, used where the store compares key columns *)

Definition float_eqb (x y : spec_float) : bool :=
  match x, y with
  | S754_zero a, S754_zero b => Bool.eqb a b
  | S754_infinity a, S754_infinity b => Bool.eqb a b
  | S754_nan, S754_nan => true
  | S754_finite a m e, S754_finite b n f =>
      Bool.eqb a b && Pos.eqb m n && Z.eqb e f
  | _, _ => false
  end.

Fixpoint pyval_eqb (a b : pyval) {struct a} : bool :=
  match a, b with
  | PNone, PNone => true
  | PBool x, PBool y => Bool.eqb x y
  | PInt x, PInt y => Z.eqb x y
  | PFloat x, PFloat y => float_eqb x y
  | PStr x, PStr y => String.eqb x y
  | PList x, PList y =>
      (fix go (x y : list pyval) {struct x} : bool :=
         match x, y with
         | [], [] => true
         | u :: x', v :: y' => pyval_eqb u v && go x' y'
         | _, _ => false
         end) x y
  | PDict x, PDict y =>
      (fix go (x y : list (string * pyval)) {struct x} : bool :=
         match x, y with
         | [], [] => true
         | (j, u) :: x', (k, v) :: y' =>
             String.eqb j k && pyval_eqb u v && go x' y'
         | _, _ => false
         end) x y
  | _, _ => false
  end.

End Py.
Import Py.

(** ** The outside world *)

(** The arguments of one [requests.get(url, params=...)]. *)
Record request : Type := {
  req_url : pyval;
  req_params : dict
}.

(** A [requests] response: [.status_code], [.url] (the address that was
    fetched, query string included), [.text] and what [.json()] gives
    ([Raise ValueError] when the body is not JSON). *)
Record response : Type := {
  status_code : Z;
  url : string;
  text : string;
  json : outcome pyval
}.

(** One [print(format % args)]. *)
Record line : Type := {
  format : string;
  args : list pyval
}.

(** A [dataset] table: its rows, oldest first, each a dict from column name
    to value. *)
Definition row : Type := dict.
Definition table : Type := list row.

(** One write to a table of the store: [db[name].insert(r)] or
    [db[name].upsert(r, keys)]. *)
Inductive store_call : Type :=
| Insert (table_name : string) (r : row)
| Upsert (table_name : string) (r : row) (keys : list string).

(** The engine under the tables answers a write, given the writes made
    before it and their answers, with the row as it keeps it or with the
    exception it raises. *)
Definition engine : Type :=
  list (store_call * outcome row) -> store_call -> outcome row.

(** The world of the script: the environment, the network and the requests
    made so far, the lines printed, the engine of the store and the writes
    handed to it so far with their answers, and the two tables. *)
Record world : Type := {
  environ : string -> option string;
  network : list request -> request -> outcome response;
  stdout : list line;
  requests_made : list request;
  database : engine;
  store_log : list (store_call * outcome row);
  credentials : table;
  fbia : table
}.

(** *** [dataset] tables *)

Definition column_is (col : string) (v : pyval) (r : row) : bool :=
  match lookup col r with
  | Some x => pyval_eqb x v
  | None => false
  end.

(** [table.find_one(col=v)] *)
Definition find_one (col : string) (v : pyval) (t : table) : option row :=
  find (column_is col v) t.

(** [table.insert(r)] *)
Definition insert (r : row) (t : table) : table := (t ++ [r])%list.

Definition matches (keys : list string) (new old : row) : bool :=
  forallb (fun k => match lookup k new with
                    | Some v => column_is k v old
                    | None => false
                    end) keys.

Definition is_key (keys : list string) (col : string) : bool :=
  existsb (String.eqb col) keys.

(** The matching row takes the new row's values in every column that is not
    a key. *)
Definition update_row (keys : list string) (new old : row) : row :=
  fold_left (fun acc kv => if is_key keys (fst kv) then acc
                           else dict_set (fst kv) (snd kv) acc) new old.

(** [table.update(new, keys)] *)
Definition update (new : row) (keys : list string) (t : table) : table :=
  map (fun old => if matches keys new old then update_row keys new old
                  else old) t.

(** [table.upsert(new, keys)]: update, and insert when no row matched. *)
Definition upsert (new : row) (keys : list string) (t : table) : table :=
  if existsb (matches keys new) t then update new keys t else insert new t.

(** *** The monad of the script: state and exceptions *)

Definition M (A : Type) : Type := world -> outcome A * world.

Definition ret {A} (a : A) : M A := fun w => (Ret a, w).

Definition raise {A} (e : exn) : M A := fun w => (Raise e, w).

Definition bind {A B} (m : M A) (k : A -> M B) : M B :=
  fun w => match m w with
           | (Ret a, w') => k a w'
           | (Raise e, w') => (Raise e, w')
           end.

Definition lift {A} (o : outcome A) : M A := fun w => (o, w).

Declare Scope py_scope.
Delimit Scope py_scope with py.
Notation "x <- m ;; k" := (bind m (fun x => k))
  (at level 61, m at next level, right associativity) : py_scope.
Notation "m ;; k" := (bind m (fun _ => k))
  (at level 61, right associativity) : py_scope.
Local Open Scope py_scope.

(** [try: body except E: handler], [catches] telling the class [E]. *)
Definition try_except {A} (body : M A) (catches : exn -> bool)
  (handler : M A) : M A :=
  fun w => match body w with
           | (Raise e, w') => if catches e then handler w' else (Raise e, w')
           | done => done
           end.

Definition is_KeyError (e : exn) : bool :=
  match e with KeyError => true | _ => false end.

Definition is_IndexError (e : exn) : bool :=
  match e with IndexError => true | _ => false end.

Definition sys_exit {A} (code : Z) : M A := raise (SystemExit code).

(** The world after one more line on the terminal. *)
Definition printed (l : line) (w : world) : world :=
  {| environ := environ w; network := network w;
     stdout := (stdout w ++ [l])%list;
     requests_made := requests_made w;
     database := database w; store_log := store_log w;
     credentials := credentials w; fbia := fbia w |}.

(** The world after one more HTTP request. *)
Definition sent (rq : request) (w : world) : world :=
  {| environ := environ w; network := network w;
     stdout := stdout w;
     requests_made := (requests_made w ++ [rq])%list;
     database := database w; store_log := store_log w;
     credentials := credentials w; fbia := fbia w |}.

(** The world after one more write was handed to the engine. *)
Definition logged (call : store_call) (answer : outcome row) (w : world)
  : world :=
  {| environ := environ w; network := network w;
     stdout := stdout w; requests_made := requests_made w;
     database := database w;
     store_log := (store_log w ++ [(call, answer)])%list;
     credentials := credentials w; fbia := fbia w |}.

Definition with_credentials (t : table) (w : world) : world :=
  {| environ := environ w; network := network w;
     stdout := stdout w; requests_made := requests_made w;
     database := database w; store_log := store_log w;
     credentials := t; fbia := fbia w |}.

Definition with_fbia (t : table) (w : world) : world :=
  {| environ := environ w; network := network w;
     stdout := stdout w; requests_made := requests_made w;
     database := database w; store_log := store_log w;
     credentials := credentials w; fbia := t |}.

Definition print (fmt : string) (a : list pyval) : M unit :=
  fun w => (Ret tt, printed {| format := fmt; args := a |} w).

(** [os.environ.get(name)] *)
Definition getenv (w : world) (name : string) : pyval :=
  match environ w name with
  | Some s => PStr s
  | None => PNone
  end.

Definition environ_get (name : string) : M pyval :=
  fun w => (Ret (getenv w name), w).

(** [requests.get(url, params=params)]: the request goes on record and the
    network answers it, or fails it with an exception. *)
Definition requests_get (rq : request) : M response :=
  fun w => (network w (requests_made w) rq, sent rq w).

Definition credentials_find_one (col : string) (v : pyval) : M (option row) :=
  fun w => (Ret (find_one col v (credentials w)), w).

(** A write: the call goes on record with the answer of the engine, which
    is the kept row or the exception of the call. *)
Definition store_write (call : store_call) : M row :=
  fun w => (database w (store_log w) call,
            logged call (database w (store_log w) call) w).

(** [db['credentials'].insert(r)] *)
Definition credentials_insert (r : row) : M unit :=
  bind (store_write (Insert "credentials" r)) (fun kept w =>
    (Ret tt, with_credentials (insert kept (credentials w)) w)).

(** [db['fbia'].upsert(r, keys)] *)
Definition fbia_upsert (r : row) (keys : list string) : M unit :=
  bind (store_write (Upsert "fbia" r keys)) (fun kept w =>
    (Ret tt, with_fbia (upsert kept keys (fbia w)) w)).

Fixpoint for_each {A} (body : A -> M unit) (l : list A) : M unit :=
  match l with
  | [] => ret tt
  | x :: l' => body x ;; for_each body l'
  end.

(** ** The script *)

(** The double quote that the messages put around their arguments. *)
Definition dq : string := String (ascii_of_nat 34) EmptyString.

(** The messages of the script, as the left operand of [%]. *)
Definition http_error_message : string :=
  "HTTP error fetching " ++ dq ++ "%s" ++ dq ++ " from Facebook API.".

Definition no_data_message : string :=
  "** No data for " ++ dq ++ "%s" ++ dq ++ " metric from " ++ dq ++ "%s"
    ++ dq ++ ".".

Definition user_token_failed_message : string :=
  "Failed to fetch a page access token. Response: " ++ dq ++ "%s" ++ dq
    ++ " from " ++ dq ++ "%s" ++ dq.

Definition page_token_failed_message : string :=
  "Failed to fetch a page access token. Response: " ++ dq ++ "%s" ++ dq.

(** The progress lines of the token manager. *)
Definition exchanging : line :=
  {| format := "- Exchanging the provided user token for a long-lived token";
     args := [] |}.

Definition getting : line :=
  {| format := "- Getting a Facebook page access token"; args := [] |}.

Definition fetching : line :=
  {| format := "- Fetching a new Facebook page access token"; args := [] |}.

Definition feed_message : string :=
  "- Getting article URLs from RSS feed " ++ dq ++ "%s" ++ dq.

Definition item_message : string :=
  " -- Getting data for instant article " ++ dq ++ "%s" ++ dq.

Definition period_of (metric : string) : string :=
  if String.eqb metric "all_views" then "day" else "week".

Definition since_of (metric : string) : string :=
  if String.eqb metric "all_view_durations_average" then "24 Mar, 2016"
  else "15 Jan, 2016".

(** ['instant_article{insights.metric(%s).period(%s).since(%s)}' % (...)] *)
Definition query_of (metric period since : string) : string :=
  "instant_article{insights.metric(" ++ metric ++ ").period(" ++ period
    ++ ").since(" ++ since ++ ")}".

Definition insights_request (u : pyval) (metric : string)
  (page_access_token : pyval) : request :=
  {| req_url := PStr "https://graph.facebook.com/v2.6/";
     req_params :=
       [("fields", PStr (query_of metric (period_of metric) (since_of metric)));
        ("id", u);
        ("access_token", page_access_token)] |}.

(** [api_request.json()['instant_article']['insights']['data']] *)
Definition insights_data (api_request : response) : outcome pyval :=
  obind (json api_request) (fun body =>
  obind (getitem "instant_article" body) (fun article =>
  obind (getitem "insights" article) (fun insights =>
  getitem "data" insights))).

(** The loop [for day in views: metric_total = metric_total +
    int(day['value'])], from the running total [metric_total]. *)
Fixpoint sum_values (days : list pyval) (metric_total : Z) : outcome Z :=
  match days with
  | [] => Ret metric_total
  | day :: rest =>
      obind (getitem "value" day) (fun v =>
      obind (int v) (fun z =>
      sum_values rest (metric_total + z)))
  end.

Definition get_insights_total (u : pyval) (metric : string)
  (page_access_token : pyval) : M Z :=
  api_request <- requests_get
                   (insights_request u metric page_access_token) ;;
  if negb (status_code api_request =? 200) then
    print http_error_message [PStr (url api_request)] ;;
    sys_exit 1
  else
    views <- try_except
               (v <- lift (insights_data api_request) ;; ret (Some v))
               is_KeyError
               (print no_data_message
                      [PStr metric; PStr (url api_request)] ;;
                ret None) ;;
    match views with
    | None => ret 0
    | Some views =>
        lift (obind (iter views) (fun days => sum_values days 0))
    end.

Definition oauth_request (client_id client_secret fb_exchange_token : pyval)
  : request :=
  {| req_url := PStr "https://graph.facebook.com/oauth/access_token";
     req_params :=
       [("grant_type", PStr "fb_exchange_token");
        ("client_id", client_id);
        ("client_secret", client_secret);
        ("fb_exchange_token", fb_exchange_token)] |}.

(** [token_request.text.split('=')[1].split('&')[0]] *)
Definition token_field (body : string) : outcome string :=
  obind (index 1 (split "="%char body)) (fun field =>
  index 0 (split "&"%char field)).

(** The request of the first exchange, from the environment of [w]. *)
Definition user_token_request (w : world) : request :=
  oauth_request (getenv w "FB_CLIENT_ID") (getenv w "FB_CLIENT_SECRET")
                (getenv w "FB_USER_TOKEN").

Definition get_long_lived_user_token : M string :=
  print "- Exchanging the provided user token for a long-lived token" [] ;;
  client_id <- environ_get "FB_CLIENT_ID" ;;
  client_secret <- environ_get "FB_CLIENT_SECRET" ;;
  fb_exchange_token <- environ_get "FB_USER_TOKEN" ;;
  token_request <- requests_get
                     (oauth_request client_id client_secret
                                    fb_exchange_token) ;;
  try_except
    (lift (token_field (text token_request)))
    is_IndexError
    (print user_token_failed_message
           [PStr (text token_request); PStr (url token_request)] ;;
     sys_exit 1).

Definition page_token_request (user_token : string) : request :=
  {| req_url := PStr "https://graph.facebook.com/v2.6/dallasmorningnews/";
     req_params :=
       [("fields", PStr "access_token");
        ("access_token", PStr user_token)] |}.

Definition page_token_row (page_token : pyval) : row :=
  [("type", PStr "page_token"); ("token", page_token)].

Definition get_page_access_token : M pyval :=
  print "- Getting a Facebook page access token" [] ;;
  token_row <- credentials_find_one "type" (PStr "page_token") ;;
  match token_row with
  | Some token_row => lift (getitem "token" (PDict token_row))
  | None =>
      print "- Fetching a new Facebook page access token" [] ;;
      user_token <- get_long_lived_user_token ;;
      token_request <- requests_get (page_token_request user_token) ;;
      try_except
        (page_token <- lift (obind (json token_request)
                                   (getitem "access_token")) ;;
         credentials_insert (page_token_row page_token) ;;
         ret page_token)
        is_KeyError
        (print page_token_failed_message [PStr (text token_request)] ;;
         sys_exit 1)
  end.

Section Feed.

(** [xmltodict.parse], the XML parser of the feed. *)
Variable xmltodict_parse : string -> outcome pyval.

Definition feed_request (w : world) : request :=
  {| req_url := getenv w "FEED_URL"; req_params := [] |}.

Definition get_facebook_feed : M pyval :=
  feed_url <- environ_get "FEED_URL" ;;
  print feed_message [feed_url] ;;
  feed <- requests_get {| req_url := feed_url; req_params := [] |} ;;
  lift (xmltodict_parse (text feed)).

End Feed.

(** The dict literal [row = {...}] of [get_insights], its values evaluated
    in the order written. *)
Definition insights_row (feed_item page_access_token : pyval) : M row :=
  item_url <- lift (getitem "link" feed_item) ;;
  guid <- lift (getitem "guid" feed_item) ;;
  title <- lift (getitem "title" feed_item) ;;
  pubDate <- lift (getitem "pubDate" feed_item) ;;
  author <- lift (getitem "author" feed_item) ;;
  link <- lift (getitem "link" feed_item) ;;
  views <- get_insights_total item_url "all_views" page_access_token ;;
  duration <- get_insights_total item_url "all_view_durations_average"
                                 page_access_token ;;
  scrolls <- get_insights_total item_url "all_scrolls_average"
                                page_access_token ;;
  ret [("id", guid);
       ("Headline", title);
       ("Publication date", pubDate);
       ("Author", author);
       ("URL", link);
       ("Total views", PInt views);
       ("Average view duration", PInt duration);
       ("Average scroll depth", PInt scrolls)].

(** The body of the loop of [get_insights]. *)
Definition collect_item (page_access_token feed_item : pyval) : M unit :=
  title <- lift (getitem "title" feed_item) ;;
  print item_message [title] ;;
  r <- insights_row feed_item page_access_token ;;
  fbia_upsert r ["id"].

(** What [for feed_item in parsed_feed['rss']['channel']['item']] ranges
    over. *)
Definition feed_items (parsed_feed : pyval) : outcome (list pyval) :=
  obind (getitem "rss" parsed_feed) (fun rss =>
  obind (getitem "channel" rss) (fun channel =>
  obind (getitem "item" channel) iter)).

(** [page_access_token] is a global of the script; here it is an argument.
    The table handle the function returns is [fbia] of the world. *)
Definition get_insights (parsed_feed page_access_token : pyval) : M unit :=
  print "- Fetching insights from Facebook API" [] ;;
  items <- lift (feed_items parsed_feed) ;;
  for_each (collect_item page_access_token) items.

(** ** Notions of the specification *)

(** The metric table of the specification: period and first date, with the
    row of all other metrics as the default. *)
Definition metric_configuration (metric : string) : string * string :=
  match lookup metric
          [("all_views", ("day", "15 Jan, 2016"));
           ("all_view_durations_average", ("week", "24 Mar, 2016"))] with
  | Some configured => configured
  | None => ("week", "15 Jan, 2016")
  end.

(** A datapoint: a dict whose ['value'] reads as the integer [z]. *)
Definition datapoint (day : pyval) (z : Z) : Prop :=
  exists v, getitem "value" day = Ret v /\ int v = Ret z.

(** A character that every version of Python reads alike in a number: not
    an underscore, which [int()] takes between digits only since 3.6, and
    not one of the separators 28 to 31, which older versions strip as white
    space. *)
Definition is_plain (c : ascii) : bool :=
  let n := N_of_ascii c in
  negb (Ascii.eqb c "_"%char) && negb ((28 <=? n) && (n <=? 31))%N.

(** A plain value: if it is a string, its characters are plain and it is
    no longer than 4300 characters, the number of digits that [int()]
    converts since Python 3.11. *)
Definition plain_value (v : pyval) : bool :=
  match v with
  | PStr s =>
      forallb is_plain (list_ascii_of_string s)
      && Nat.leb (String.length s) 4300
  | _ => true
  end.

(** A datapoint whose ['value'] is plain. *)
Definition plain_datapoint (day : pyval) (z : Z) : Prop :=
  exists v, getitem "value" day = Ret v /\ plain_value v = true
            /\ int v = Ret z.

Definition total (zs : list Z) : Z := fold_right Z.add 0 zs.

Definition nonnegative_value (day : pyval) : Prop :=
  forall v z, getitem "value" day = Ret v -> int v = Ret z -> 0 <= z.

Definition rows_with_id (g : pyval) (t : table) : list row :=
  filter (column_is "id" g) t.

(** At most one row per article ID. *)
Definition unique_ids (t : table) : Prop :=
  forall g, (List.length (rows_with_id g t) <= 1)%nat.

(** The rows the engine kept, among the answers of a log. *)
Definition stored_rows (log : list (store_call * outcome row)) : list row :=
  flat_map (fun entry => match snd entry with
                         | Ret kept => [kept]
                         | Raise _ => []
                         end) log.

(** The writes made between [w] and a later world [w']. *)
Definition written_since (w w' : world) : list (store_call * outcome row) :=
  skipn (List.length (store_log w)) (store_log w').

(** The row that [get_insights] hands to the store for a feed item of the
    given fields and totals. *)
Definition insights_row_of (guid title pubDate author link : pyval)
  (views duration scrolls : Z) : row :=
  [("id", guid);
   ("Headline", title);
   ("Publication date", pubDate);
   ("Author", author);
   ("URL", link);
   ("Total views", PInt views);
   ("Average view duration", PInt duration);
   ("Average scroll depth", PInt scrolls)].

(** The progress lines of the collector. *)
Definition collecting : line :=
  {| format := "- Fetching insights from Facebook API"; args := [] |}.

Definition item_line (title : pyval) : line :=
  {| format := item_message; args := [title] |}.


(** ** Sample worlds *)

Module Scenario.

Definition quoted (s : string) : string := dq ++ s ++ dq.

(** An answer of the insights API: its status, its raw body and what
    [.json()] makes of the body. *)
Definition answer (code : Z) (body : string) (decoded : outcome pyval)
  : response :=
  {| status_code := code;
     url := "https://graph.facebook.com/v2.6/?id=http%3A%2F%2Fx%2F1";
     text := body;
     json := decoded |}.

Definition insights_body (data : pyval) : pyval :=
  PDict [("instant_article", PDict [("insights", PDict [("data", data)])])].

(** The raw body [{"instant_article": {"insights": {"data": ...}}}]. *)
Definition insights_text (data : string) : string :=
  "{" ++ quoted "instant_article" ++ ": {" ++ quoted "insights" ++ ": {"
    ++ quoted "data" ++ ": " ++ data ++ "}}}".

(** The raw datapoint [{"value": ...}]. *)
Definition value_text (v : string) : string :=
  "{" ++ quoted "value" ++ ": " ++ v ++ "}".

(** A network that gives every request the same answer. *)
Definition always (r : response) : list request -> request -> outcome response :=
  fun _ _ => Ret r.

(** The settings of the [.env] file. *)
Definition settings (name : string) : option string :=
  lookup name
    [("FEED_URL", "http://x/feed"); ("FB_CLIENT_ID", "client");
     ("FB_CLIENT_SECRET", "secret"); ("FB_USER_TOKEN", "user-token");
     ("SLACK_API_KEY", "slack-key")].

(** A 64-bit signed integer, the integers that SQLite holds. *)
Definition int64 (z : Z) : bool := (- 2 ^ 63 <=? z) && (z <? 2 ^ 63).

Definition decimal (s : string) : bool :=
  match s with
  | EmptyString => false
  | _ => forallb is_digit (list_ascii_of_string s)
  end.

(** What the column [id], an INTEGER PRIMARY KEY, makes of a value: a
    64-bit integer stays; a string of decimal digits becomes the integer it
    stands for (['101'] is 101, ['007'] is 7); a string that does not
    stand for an integer is refused with [IntegrityError] (datatype
    mismatch), an integer beyond 64 bits with [OverflowError]. *)
Definition rowid (v : pyval) : outcome pyval :=
  match v with
  | PInt z => if int64 z then Ret (PInt z) else Raise OverflowError
  | PStr s =>
      match (if decimal s then int_of_string s else Raise ValueError) with
      | Ret z => if int64 z then Ret (PInt z)
                 else Raise (LibraryError "IntegrityError")
      | Raise _ => Raise (LibraryError "IntegrityError")
      end
  | _ => Raise (LibraryError "IntegrityError")
  end.

(** What another column makes of a value: a string or a 64-bit integer
    stays as written; a list or an object cannot be bound. *)
Definition bound (v : pyval) : outcome pyval :=
  match v with
  | PStr _ => Ret v
  | PInt z => if int64 z then Ret v else Raise OverflowError
  | _ => Raise (LibraryError "InterfaceError")
  end.

Fixpoint kept_row (r : row) : outcome row :=
  match r with
  | [] => Ret []
  | (col, v) :: r' =>
      obind (if String.eqb col "id" then rowid v else bound v) (fun kept =>
      obind (kept_row r') (fun rest => Ret ((col, kept) :: rest)))
  end.

(** The engine of the samples.  It answers as the SQLite file of the
    script does on the rows that occur in the samples: rows of strings and
    64-bit integers, whose [id] is an integer, a string of decimal digits
    or a string that is no number, and tokens that are lists.  The key
    that SQLite gives a row written without [id] is left out of the kept
    row. *)
Definition sqlite : engine :=
  fun _ call =>
    match call with
    | Insert _ r => kept_row r
    | Upsert _ r _ => kept_row r
    end.

(** The first run on a machine: nothing printed, sent or stored yet. *)
Definition fresh (net : list request -> request -> outcome response) : world :=
  {| environ := settings; network := net; stdout := [];
     requests_made := []; database := sqlite; store_log := [];
     credentials := []; fbia := [] |}.

Definition article : pyval := PStr "http://x/1".
Definition token : pyval := PStr "page-token".

Definition three_and_five : response :=
  answer 200
    (insights_text ("[" ++ value_text (quoted "3") ++ ", "
                      ++ value_text (quoted "5") ++ "]"))
    (Ret (insights_body
            (PList [PDict [("value", PStr "3")]; PDict [("value", PStr "5")]]))).

Definition minus_three : response :=
  answer 200
    (insights_text ("[" ++ value_text (quoted "-3") ++ "]"))
    (Ret (insights_body (PList [PDict [("value", PStr "-3")]]))).

(** The body [{"instant_article": null}]. *)
Definition null_article : response :=
  answer 200 ("{" ++ quoted "instant_article" ++ ": null}")
         (Ret (PDict [("instant_article", PNone)])).

(** The body [{"id": "http://x/1"}]: no ['instant_article'] at all. *)
Definition no_article : response :=
  answer 200 ("{" ++ quoted "id" ++ ": " ++ quoted "http://x/1" ++ "}")
         (Ret (PDict [("id", PStr "http://x/1")])).

Definition server_error : response :=
  answer 500 "Internal Server Error" (Raise ValueError).

(** A machine on which an earlier run stored the page token. *)
Definition with_token (net : list request -> request -> outcome response)
  : world :=
  {| environ := settings; network := net; stdout := [];
     requests_made := []; database := sqlite; store_log := [];
     credentials := [page_token_row (PStr "cached")];
     fbia := [] |}.

Definition unreachable : list request -> request -> outcome response :=
  fun _ _ => Raise (LibraryError "ConnectionError").

Definition oauth_answer : response :=
  {| status_code := 200;
     url := "https://graph.facebook.com/oauth/access_token";
     text := "access_token=abc&expires=5";
     json := Raise ValueError |}.

Definition oauth_error : response :=
  {| status_code := 400;
     url := "https://graph.facebook.com/oauth/access_token";
     text := "error";
     json := Raise ValueError |}.

Definition page_answer (body : string) (decoded : pyval) : response :=
  {| status_code := 200;
     url := "https://graph.facebook.com/v2.6/dallasmorningnews/";
     text := body;
     json := Ret decoded |}.

(** The body [{"access_token": "page"}]. *)
Definition page_token_answer : response :=
  page_answer ("{" ++ quoted "access_token" ++ ": " ++ quoted "page" ++ "}")
              (PDict [("access_token", PStr "page")]).

(** The body [{"error": "denied"}]. *)
Definition page_denied_answer : response :=
  page_answer ("{" ++ quoted "error" ++ ": " ++ quoted "denied" ++ "}")
              (PDict [("error", PStr "denied")]).

(** The body [[]]: JSON, but not an object. *)
Definition page_list_answer : response := page_answer "[]" (PList []).

(** A network that answers the first request with [first] and every later
    one with [second]. *)
Definition first_then (first second : response)
  : list request -> request -> outcome response :=
  fun earlier _ => match earlier with
                   | [] => Ret first
                   | _ => Ret second
                   end.

Definition not_found : response :=
  {| status_code := 404;
     url := "http://x/feed";
     text := "<html>Not Found</html>";
     json := Raise ValueError |}.

Definition html_page : pyval := PDict [("html", PStr "Not Found")].

(** A parser that reads every body as [parsed]. *)
Definition reads_as (parsed : pyval) : string -> outcome pyval :=
  fun _ => Ret parsed.

(** A network whose one datapoint counts the requests that came before:
    the body [{"instant_article": {"insights": {"data": [{"value": n}]}}}]
    after [n] requests. *)
Definition counting : list request -> request -> outcome response :=
  fun earlier _ =>
    let n := Z.of_nat (List.length earlier) in
    Ret (answer 200
           (insights_text
              ("[" ++ value_text (NilZero.string_of_int (Z.to_int n)) ++ "]"))
           (Ret (insights_body (PList [PDict [("value", PInt n)]])))).

(** Two items whose guid is the number of the article in the CMS, and one
    whose guid is no number. *)
Definition item_101 : pyval :=
  PDict [("guid", PStr "101"); ("title", PStr "First");
         ("pubDate", PStr "Fri, 15 Jan 2016"); ("author", PStr "Staff");
         ("link", PStr "http://x/1")].

Definition item_102 : pyval :=
  PDict [("guid", PStr "102"); ("title", PStr "Second");
         ("pubDate", PStr "Sat, 16 Jan 2016"); ("author", PStr "Staff");
         ("link", PStr "http://x/2")].

Definition item_a1 : pyval :=
  PDict [("guid", PStr "A1"); ("title", PStr "Third");
         ("pubDate", PStr "Sun, 17 Jan 2016"); ("author", PStr "Staff");
         ("link", PStr "http://x/3")].

(** What the parser makes of [<rss><channel>...</channel></rss>]: several
    [<item>] elements become a list, a single one stays a dict. *)
Definition feed_of (items : pyval) : pyval :=
  PDict [("rss", PDict [("channel", PDict [("item", items)])])].

Definition two_items : pyval := feed_of (PList [item_101; item_102]).


End Scenario.

(** ** The reporter and the whole run *)

(** One [slack.files.upload(file, channels=..., filetype=..., title=...,
    initial_comment=...)], with the content found in the file. *)
Record upload : Type := {
  up_file : string;
  up_content : string;
  up_channels : list string;
  up_filetype : string;
  up_title : string;
  up_comment : string
}.

(** What Slack does with an upload: it takes it, refuses it with a
    [slacker.Error] of the given message, or the call fails otherwise. *)
Inductive slack_answer : Type :=
| Uploaded
| SlackError (message : string)
| SlackFailure (e : exn).

(** The machine of a whole run: the world of the collector, the date as
    [date.today().strftime('%b %d, %Y')] prints it, Slack (which answers an
    upload given the earlier ones), the uploads made and the files that
    [dataset.freeze] has written, by name.  The file fbia.sqlite of the
    store is not among [files]: it is the two tables of the world. *)
Record machine : Type := {
  base : world;
  today : string;
  slack : list upload -> upload -> slack_answer;
  uploads : list upload;
  files : list (string * string)
}.

Definition with_base (w : world) (s : machine) : machine :=
  {| base := w; today := today s; slack := slack s; uploads := uploads s;
     files := files s |}.

(** The machine after an upload was handed to Slack. *)
Definition uploaded (u : upload) (s : machine) : machine :=
  {| base := base s; today := today s; slack := slack s;
     uploads := (uploads s ++ [u])%list; files := files s |}.

(** The machine after [name] was written with [text]. *)
Definition written (name text : string) (s : machine) : machine :=
  {| base := base s; today := today s; slack := slack s;
     uploads := uploads s; files := dict_set name text (files s) |}.

Definition P (A : Type) : Type := machine -> outcome A * machine.

Definition pret {A} (a : A) : P A := fun s => (Ret a, s).

Definition pbind {A B} (m : P A) (k : A -> P B) : P B :=
  fun s => match m s with
           | (Ret a, s') => k a s'
           | (Raise e, s') => (Raise e, s')
           end.

(** A step of the collector, run on the world of the machine. *)
Definition in_world {A} (m : M A) : P A :=
  fun s => (fst (m (base s)), with_base (snd (m (base s))) s).

(** [date.today().strftime('%b %d, %Y')] *)
Definition strftime_today : P string := fun s => (Ret (today s), s).

Definition slack_error_message : string :=
  "Error posting to the Slack API: " ++ dq ++ "%s" ++ dq.

(** The second line of the literal continues the first after a backslash,
    so its indentation is part of the text. *)
Definition report_comment : string :=
  "Here are the latest :chart_with_upwards_trend: numbers "
    ++ "    for our Facebook Instant Articles.".

Definition report_upload (to_upload text : string) (channels : list string)
  (date : string) : upload :=
  {| up_file := to_upload;
     up_content := text;
     up_channels := channels;
     up_filetype := "csv";
     up_title := "Facebook Insights report for " ++ date;
     up_comment := report_comment |}.

(** [slack.files.upload(...)]: the file is opened, which fails when there
    is none, and handed to Slack.  A [slacker.Error] comes back as its
    message, for the handler of the caller. *)
Definition slack_files_upload (to_upload : string) (channels : list string)
  (date : string) : P (option string) :=
  fun s => match lookup to_upload (files s) with
           | None => (Raise (LibraryError "IOError"), s)
           | Some text =>
               let u := report_upload to_upload text channels date in
               match slack s (uploads s) u with
               | Uploaded => (Ret None, uploaded u s)
               | SlackError message => (Ret (Some message), uploaded u s)
               | SlackFailure e => (Raise e, uploaded u s)
               end
           end.

Section Report.

(** [xmltodict.parse], and the CSV text that [dataset.freeze] makes of the
    rows of a table. *)
Variable xmltodict_parse : string -> outcome pyval.
Variable freeze_csv : table -> string.

(** [dataset.freeze(insights_table.all(), format='csv', filename=...)] *)
Definition dataset_freeze (filename : string) : P unit :=
  fun s => (Ret tt, written filename (freeze_csv (fbia (base s))) s).

Declare Scope report_scope.
Notation "x <- m ;; k" := (pbind m (fun x => k))
  (at level 61, m at next level, right associativity) : report_scope.
Notation "m ;; k" := (pbind m (fun _ => k))
  (at level 61, right associativity) : report_scope.
Local Open Scope report_scope.

Definition post_insights_to_slack (to_upload : string)
  (channels : list string) : P unit :=
  date <- strftime_today ;;
  in_world (print "- Pushing insights to Slack" []) ;;
  refused <- slack_files_upload to_upload channels date ;;
  match refused with
  | None => pret tt
  | Some e =>
      in_world (print slack_error_message [PStr e]) ;;
      in_world (sys_exit 1)
  end.

(** The script run as a program.  Opening the database and building the
    Slack client touch nothing; [post_insights_to_slack()] is called with
    its defaults. *)
Definition main : P unit :=
  page_access_token <- in_world get_page_access_token ;;
  parsed_feed <- in_world (get_facebook_feed xmltodict_parse) ;;
  in_world (get_insights parsed_feed page_access_token) ;;
  in_world (print "- Writing results to CSV" []) ;;
  dataset_freeze "fbia.csv" ;;
  post_insights_to_slack "fbia.csv" ["C0KF7RARL"] ;;
  in_world (print "Done!" []).

End Report.

(** ** More notions for the properties below *)

(** The three requests [get_insights] makes for a feed item, in order. *)
Definition requests_for (page_access_token feed_item : pyval)
  : list request :=
  match getitem "link" feed_item with
  | Ret item_url =>
      [insights_request item_url "all_views" page_access_token;
       insights_request item_url "all_view_durations_average"
                        page_access_token;
       insights_request item_url "all_scrolls_average" page_access_token]
  | Raise _ => []
  end.

(** Both tables of [w'] are those of [w]. *)
Definition same_tables (w w' : world) : Prop :=
  credentials w' = credentials w /\ fbia w' = fbia w.


(** Whatever its outcome, [m] takes a world to a world related by [R]. *)
Definition always_related {A} (R : world -> world -> Prop) (m : M A) : Prop :=
  forall w, R w (snd (m w)).

(** The progress lines of the end of a run. *)
Definition writing : line :=
  {| format := "- Writing results to CSV"; args := [] |}.

Definition pushing : line :=
  {| format := "- Pushing insights to Slack"; args := [] |}.

Definition finished : line := {| format := "Done!"; args := [] |}.

(** The upload of a run on machine [s] whose collector left the world
    [w]. *)
Definition report_of (freeze_csv : table -> string) (s : machine)
  (w : world) : upload :=
  report_upload "fbia.csv" (freeze_csv (fbia w)) ["C0KF7RARL"] (today s).

(** The table after the upserts of [rows] on ['id'], in order. *)
Definition upsert_all (rows : list row) (t : table) : table :=
  fold_left (fun t r => upsert r ["id"] t) rows t.

(** Between [w] and [w'] the store was handed upserts into the insights
    table and nothing else: the log of [w'] continues that of [w], and the
    insights table of [w'] is that of [w] after the upserts, in order, of
    the rows the store kept. *)
Definition upserted (w w' : world) : Prop :=
  exists entries,
    store_log w' = (store_log w ++ entries)%list
    /\ fbia w' = upsert_all (stored_rows entries) (fbia w)
    /\ credentials w' = credentials w
    /\ database w' = database w.

(** The rows of type page_token in the credentials table. *)
Definition page_token_rows (t : table) : list row :=
  filter (column_is "type" (PStr "page_token")) t.

(** [sep.join(pieces)] *)
Fixpoint join (sep : ascii) (pieces : list string) : string :=
  match pieces with
  | [] => EmptyString
  | [piece] => piece
  | piece :: rest => piece ++ String sep (join sep rest)
  end.

(** [str(z)] for an integer. *)
Definition str_of_int (z : Z) : string := NilZero.string_of_int (Z.to_int z).

(** ** More sample worlds *)

Module Sample.

Definition feed_answer : response :=
  {| status_code := 200;
     url := "http://x/feed";
     text := "<rss><channel><item/><item/></channel></rss>";
     json := Raise ValueError |}.

(** A network for a first whole run: the two token exchanges, the feed,
    then the counting insights. *)
Definition first_run : list request -> request -> outcome response :=
  fun earlier rq =>
    match earlier with
    | [] => Ret Scenario.oauth_answer
    | [_] => Ret Scenario.page_token_answer
    | [_; _] => Ret feed_answer
    | _ => Scenario.counting earlier rq
    end.

(** A network that answers the first three requests by counting and every
    later one with a server error. *)
Definition failing_after_three : list request -> request -> outcome response :=
  fun earlier rq =>
    match earlier with
    | [] | [_] | [_; _] => Scenario.counting earlier rq
    | _ => Ret Scenario.server_error
    end.

(** A CSV export: the column names of the first row, then the values of
    each row, the fields that hold a comma or a quote in quotes, the lines
    ended as the [csv] module ends them. *)
Definition cr_lf : string :=
  String (ascii_of_nat 13) (String (ascii_of_nat 10) EmptyString).

Definition needs_quotes (c : ascii) : bool :=
  Ascii.eqb c ","%char || Ascii.eqb c (ascii_of_nat 34)
  || Ascii.eqb c (ascii_of_nat 13) || Ascii.eqb c (ascii_of_nat 10).

Fixpoint doubled_quotes (s : string) : string :=
  match s with
  | EmptyString => EmptyString
  | String c s' =>
      if Ascii.eqb c (ascii_of_nat 34) then String c (String c (doubled_quotes s'))
      else String c (doubled_quotes s')
  end.

Definition csv_field (s : string) : string :=
  if existsb needs_quotes (list_ascii_of_string s)
  then dq ++ doubled_quotes s ++ dq
  else s.

Definition csv_value (v : pyval) : string :=
  match v with
  | PStr s => s
  | PInt z => str_of_int z
  | _ => EmptyString
  end.

Definition csv_line (fields : list string) : string :=
  join ","%char (map csv_field fields) ++ cr_lf.

Definition csv (t : table) : string :=
  match t with
  | [] => EmptyString
  | first :: _ =>
      csv_line (map fst first)
        ++ String.concat EmptyString
             (map (fun r => csv_line (map (fun kv => csv_value (snd kv)) r)) t)
  end.

(** The export of the two articles with the totals 3, 4, 5 and 6, 7, 8,
    line by line. *)
Definition first_report : string :=
  "id,Headline,Publication date,Author,URL,Total views,Average view duration,Average scroll depth"
    ++ cr_lf
    ++ "101,First," ++ dq ++ "Fri, 15 Jan 2016" ++ dq
    ++ ",Staff,http://x/1,3,4,5" ++ cr_lf
    ++ "102,Second," ++ dq ++ "Sat, 16 Jan 2016" ++ dq
    ++ ",Staff,http://x/2,6,7,8" ++ cr_lf.

(** A world of the samples, field by field. *)
Definition world_of (net : list request -> request -> outcome response)
  (out : list line) (sent_before : list request)
  (log : list (store_call * outcome row)) (tokens rows : table) : world :=
  {| environ := Scenario.settings; network := net; stdout := out;
     requests_made := sent_before; database := Scenario.sqlite;
     store_log := log; credentials := tokens; fbia := rows |}.

Definition site (net : list request -> request -> outcome response)
  (answer : slack_answer) : machine :=
  {| base := Scenario.fresh net;
     today := "Jan 15, 2016";
     slack := fun _ _ => answer;
     uploads := [];
     files := [] |}.

(** The rows of the two articles of the feed, as the feed has them and as
    the store keeps them, with the given totals. *)
Definition fed_101 (views duration scrolls : Z) : row :=
  insights_row_of (PStr "101") (PStr "First") (PStr "Fri, 15 Jan 2016")
                  (PStr "Staff") (PStr "http://x/1") views duration scrolls.

Definition kept_101 (views duration scrolls : Z) : row :=
  insights_row_of (PInt 101) (PStr "First") (PStr "Fri, 15 Jan 2016")
                  (PStr "Staff") (PStr "http://x/1") views duration scrolls.

Definition fed_102 (views duration scrolls : Z) : row :=
  insights_row_of (PStr "102") (PStr "Second") (PStr "Sat, 16 Jan 2016")
                  (PStr "Staff") (PStr "http://x/2") views duration scrolls.

Definition kept_102 (views duration scrolls : Z) : row :=
  insights_row_of (PInt 102) (PStr "Second") (PStr "Sat, 16 Jan 2016")
                  (PStr "Staff") (PStr "http://x/2") views duration scrolls.

(** An upsert that the store took. *)
Definition taken (fed kept : row) : store_call * outcome row :=
  (Upsert "fbia" fed ["id"], Ret kept).

(** The lines and the requests of one run of [get_insights] over the two
    items. *)
Definition two_items_lines : list line :=
  [collecting; item_line (PStr "First"); item_line (PStr "Second")].

Definition two_items_requests (page_access_token : pyval) : list request :=
  (requests_for page_access_token Scenario.item_101
     ++ requests_for page_access_token Scenario.item_102)%list.

(** The world that [get_insights] leaves when it has collected the two
    items on the counting network of a fresh machine, and the one that a
    second run leaves after it. *)
Definition collected : world :=
  world_of Scenario.counting two_items_lines
    (two_items_requests Scenario.token)
    [taken (fed_101 0 1 2) (kept_101 0 1 2);
     taken (fed_102 3 4 5) (kept_102 3 4 5)]
    []
    [kept_101 0 1 2; kept_102 3 4 5].

Definition collected_twice : world :=
  world_of Scenario.counting (two_items_lines ++ two_items_lines)%list
    (two_items_requests Scenario.token
       ++ two_items_requests Scenario.token)%list
    [taken (fed_101 0 1 2) (kept_101 0 1 2);
     taken (fed_102 3 4 5) (kept_102 3 4 5);
     taken (fed_101 6 7 8) (kept_101 6 7 8);
     taken (fed_102 9 10 11) (kept_102 9 10 11)]
    []
    [kept_101 6 7 8; kept_102 9 10 11].

(** The world after the first of the two items, and a feed of the article
    101 followed by the article whose guid is no number. *)
Definition collected_first : world :=
  world_of Scenario.counting [collecting; item_line (PStr "First")]
    (requests_for Scenario.token Scenario.item_101)
    [taken (fed_101 0 1 2) (kept_101 0 1 2)]
    []
    [kept_101 0 1 2].

Definition numbered_and_named : pyval :=
  Scenario.feed_of (PList [Scenario.item_101; Scenario.item_a1]).

(** A feed that lists one article under the guids [7] and [007]. *)
Definition seven_twice : pyval :=
  Scenario.feed_of
    (PList [PDict [("guid", PStr "7"); ("title", PStr "Earlier");
                   ("pubDate", PStr "Fri, 15 Jan 2016");
                   ("author", PStr "Staff"); ("link", PStr "http://x/7")];
            PDict [("guid", PStr "007"); ("title", PStr "Later");
                   ("pubDate", PStr "Fri, 15 Jan 2016");
                   ("author", PStr "Staff"); ("link", PStr "http://x/7")]]).

(** A machine whose insights table holds, from earlier runs, an article
    that has left the feed and one that is still in it. *)
Definition old_row : row :=
  insights_row_of (PInt 109) (PStr "Old") (PStr "Fri, 01 Jan 2016")
                  (PStr "Staff") (PStr "http://x/9") 40 7 60.

Definition archive (net : list request -> request -> outcome response)
  : world :=
  world_of net [] [] [] [] [kept_101 20 30 40; old_row].

(** The worlds of a first whole run, after each stage of the collector. *)
Definition token_fetched : world :=
  world_of first_run [getting; fetching; exchanging]
    [user_token_request (Scenario.fresh first_run);
     page_token_request "abc"]
    [(Insert "credentials" (page_token_row (PStr "page")),
      Ret (page_token_row (PStr "page")))]
    [page_token_row (PStr "page")]
    [].

Definition feed_line : line :=
  {| format := feed_message; args := [PStr "http://x/feed"] |}.

Definition feed_fetched : world :=
  world_of first_run [getting; fetching; exchanging; feed_line]
    [user_token_request (Scenario.fresh first_run);
     page_token_request "abc";
     {| req_url := PStr "http://x/feed"; req_params := [] |}]
    [(Insert "credentials" (page_token_row (PStr "page")),
      Ret (page_token_row (PStr "page")))]
    [page_token_row (PStr "page")]
    [].

Definition insights_collected : world :=
  world_of first_run
    ([getting; fetching; exchanging; feed_line] ++ two_items_lines)%list
    ([user_token_request (Scenario.fresh first_run);
      page_token_request "abc";
      {| req_url := PStr "http://x/feed"; req_params := [] |}]
       ++ two_items_requests (PStr "page"))%list
    [(Insert "credentials" (page_token_row (PStr "page")),
      Ret (page_token_row (PStr "page")));
     taken (fed_101 3 4 5) (kept_101 3 4 5);
     taken (fed_102 6 7 8) (kept_102 6 7 8)]
    [page_token_row (PStr "page")]
    [kept_101 3 4 5; kept_102 6 7 8].

(** A feed item without an author. *)
Definition anonymous_item : pyval :=
  PDict [("guid", PStr "103"); ("title", PStr "Third");
         ("pubDate", PStr "Sun, 17 Jan 2016");
         ("link", PStr "http://x/3")].

(** The datapoints [{"value": "3"}, {"name": "x"}]. *)
Definition value_then_name : response :=
  Scenario.answer 200
    (Scenario.insights_text
       ("[" ++ Scenario.value_text (Scenario.quoted "3") ++ ", {"
          ++ Scenario.quoted "name" ++ ": " ++ Scenario.quoted "x" ++ "}]"))
    (Ret (Scenario.insights_body
            (PList [PDict [("value", PStr "3")];
                    PDict [("name", PStr "x")]]))).

Definition five_and_three : response :=
  Scenario.answer 200
    (Scenario.insights_text
       ("[" ++ Scenario.value_text (Scenario.quoted "5") ++ ", "
          ++ Scenario.value_text (Scenario.quoted "3") ++ "]"))
    (Ret (Scenario.insights_body
            (PList [PDict [("value", PStr "5")]; PDict [("value", PStr "3")]]))).

Definition no_datapoints : response :=
  Scenario.answer 200 (Scenario.insights_text "[]")
    (Ret (Scenario.insights_body (PList []))).

Definition not_json : response :=
  Scenario.answer 200 "<html>Maintenance</html>" (Raise ValueError).

End Sample.

(** ** Checks of the builtins *)

Example int_three : int (PStr "3") = Ret 3.
Proof. reflexivity. Qed.

Example int_padded_negative : int (PStr " -12 ") = Ret (-12).
Proof. reflexivity. Qed.

Example int_word : int (PStr "abc") = Raise ValueError.
Proof. reflexivity. Qed.

Example int_float_truncates :
  int (PFloat (S754_finite true 7 (-1))) = Ret (-3).
Proof. reflexivity. Qed.

(** White space is stripped, a separator such as the file separator 28 is
    not. *)
Example int_form_feed : int (PStr (String (ascii_of_nat 12) "7")) = Ret 7.
Proof. reflexivity. Qed.

Example int_file_separator :
  int (PStr (String (ascii_of_nat 28) "7")) = Raise ValueError.
Proof. reflexivity. Qed.

Example int_no_break_space :
  int (PStr (String (ascii_of_nat 160) "7")) = Ret 7.
Proof. reflexivity. Qed.

Example int_underscore : int (PStr "1_000") = Ret 1000.
Proof. reflexivity. Qed.

Example split_token :
  split "="%char "access_token=abc&expires=5"
  = ["access_token"; "abc&expires"; "5"].
Proof. reflexivity. Qed.

Example token_field_first : token_field "access_token=abc&expires=5" = Ret "abc".
Proof. reflexivity. Qed.

Example token_field_missing : token_field "error" = Raise IndexError.
Proof. reflexivity. Qed.

(** ** [get_insights_total] *)

Lemma sum_values_datapoints days zs :
  Forall2 datapoint days zs ->
  forall metric_total,
    sum_values days metric_total = Ret (metric_total + total zs).
Proof.
  induction 1 as [|day z days zs [v [Hv Hz]] _ IH]; intros acc; simpl.
  - f_equal. lia.
  - rewrite Hv. simpl. rewrite Hz. simpl. rewrite IH. f_equal. unfold total. lia.
Qed.

(** What a run does once the network has answered [r]. *)
Lemma get_insights_total_answered u metric tok w r :
  network w (requests_made w) (insights_request u metric tok) = Ret r ->
  get_insights_total u metric tok w
  = let w1 := sent (insights_request u metric tok) w in
    if status_code r =? 200 then
      match insights_data r with
      | Ret views => (obind (iter views) (fun days => sum_values days 0), w1)
      | Raise KeyError =>
          (Ret 0, printed {| format := no_data_message;
                             args := [PStr metric; PStr (url r)] |} w1)
      | Raise e => (Raise e, w1)
      end
    else
      (Raise (SystemExit 1),
       printed {| format := http_error_message; args := [PStr (url r)] |} w1).
Proof.
  intros Hnet.
  unfold get_insights_total, bind, requests_get. rewrite Hnet.
  destruct (status_code r =? 200); simpl; [|reflexivity].
  unfold try_except, bind, lift.
  destruct (insights_data r) as [views|e]; simpl; [reflexivity|].
  destruct e; reflexivity.
Qed.

(** Whatever the network does, the run sends exactly one request. *)
Lemma get_insights_total_requests u metric tok w :
  requests_made (snd (get_insights_total u metric tok w))
  = (requests_made w ++ [insights_request u metric tok])%list.
Proof.
  destruct (network w (requests_made w) (insights_request u metric tok))
    as [r|e] eqn:Hnet.
  - rewrite (get_insights_total_answered _ _ _ _ _ Hnet). simpl.
    destruct (status_code r =? 200); [|reflexivity].
    destruct (insights_data r) as [views|[]]; reflexivity.
  - unfold get_insights_total, bind, requests_get. rewrite Hnet.
    reflexivity.
Qed.

Lemma plain_datapoints days zs :
  Forall2 plain_datapoint days zs -> Forall2 datapoint days zs.
Proof.
  induction 1 as [|day z days zs [v [Hv [_ Hz]]] _ IH]; constructor;
    [now exists v|assumption].
Qed.

(** C1: when the API answers with status 200 and the path
    instant_article.insights.data holds a list of datapoints, the function
    returns the sum of the integer readings of their ['value'] fields.  A
    datapoint is a dict whose ['value'] [int()] reads; the values are
    plain, so that the reading is the same under every version of
    Python. *)
Theorem get_insights_total_sums_values u metric tok w r days zs :
  network w (requests_made w) (insights_request u metric tok) = Ret r ->
  status_code r = 200 ->
  insights_data r = Ret (PList days) ->
  Forall2 plain_datapoint days zs ->
  fst (get_insights_total u metric tok w) = Ret (total zs).
Proof.
  intros Hnet Hcode Hdata Hdays.
  rewrite (get_insights_total_answered _ _ _ _ _ Hnet), Hcode, Hdata.
  simpl. apply (sum_values_datapoints _ _ (plain_datapoints _ _ Hdays)).
Qed.

(** The datapoints [{value:"3"}, {value:"5"}] total 8. *)
Lemma sums_three_and_five :
  fst (get_insights_total Scenario.article "all_views" Scenario.token
         (Scenario.fresh (Scenario.always Scenario.three_and_five)))
  = Ret 8.
Proof.
  apply (get_insights_total_sums_values
           Scenario.article "all_views" Scenario.token
           (Scenario.fresh (Scenario.always Scenario.three_and_five))
           Scenario.three_and_five
           [PDict [("value", PStr "3")]; PDict [("value", PStr "5")]]
           [3; 5]).
  - reflexivity.
  - reflexivity.
  - reflexivity.
  - repeat constructor.
    + exists (PStr "3"). repeat split; reflexivity.
    + exists (PStr "5"). repeat split; reflexivity.
Defined.

(** An empty list of datapoints totals 0, with no notice printed. *)
Example get_insights_total_no_datapoints :
  get_insights_total Scenario.article "all_views" Scenario.token
    (Scenario.fresh (Scenario.always Sample.no_datapoints))
  = (Ret 0,
     sent (insights_request Scenario.article "all_views" Scenario.token)
          (Scenario.fresh (Scenario.always Sample.no_datapoints))).
Proof. reflexivity. Qed.

(** C2: the one request the function sends asks, in its ['fields'], for the
    metric with the period and the first date of the specification's
    table: week and 15 Jan 2016 unless the table says otherwise, day for
    all_views, 24 Mar 2016 for all_view_durations_average.  The query is
    written out here as the script formats it. *)
Theorem get_insights_total_query u metric tok w :
  requests_made (snd (get_insights_total u metric tok w))
  = (requests_made w
     ++ [{| req_url := PStr "https://graph.facebook.com/v2.6/";
            req_params :=
              [("fields",
                PStr ("instant_article{insights.metric(" ++ metric
                        ++ ").period(" ++ fst (metric_configuration metric)
                        ++ ").since(" ++ snd (metric_configuration metric)
                        ++ ")}"));
               ("id", u);
               ("access_token", tok)] |}])%list.
Proof.
  rewrite get_insights_total_requests.
  unfold insights_request, query_of, period_of, since_of,
    metric_configuration.
  simpl.
  destruct (String.eqb_spec metric "all_views") as [->|_]; [reflexivity|].
  destruct (metric =? "all_view_durations_average")%string; reflexivity.
Qed.

(** The three queries that [get_insights] asks for. *)
Example query_all_views u tok :
  lookup "fields" (req_params (insights_request u "all_views" tok))
  = Some (PStr "instant_article{insights.metric(all_views).period(day).since(15 Jan, 2016)}").
Proof. reflexivity. Qed.

Example query_all_view_durations_average u tok :
  lookup "fields"
    (req_params (insights_request u "all_view_durations_average" tok))
  = Some (PStr "instant_article{insights.metric(all_view_durations_average).period(week).since(24 Mar, 2016)}").
Proof. reflexivity. Qed.

Example query_all_scrolls_average u tok :
  lookup "fields" (req_params (insights_request u "all_scrolls_average" tok))
  = Some (PStr "instant_article{insights.metric(all_scrolls_average).period(week).since(15 Jan, 2016)}").
Proof. reflexivity. Qed.

(** C6: on an answer whose status is not 200 the function prints the
    request URL and leaves through [sys.exit(1)]; it returns nothing. *)
Theorem get_insights_total_http_error u metric tok w r :
  network w (requests_made w) (insights_request u metric tok) = Ret r ->
  status_code r <> 200 ->
  get_insights_total u metric tok w
  = (Raise (SystemExit 1),
     printed {| format := http_error_message; args := [PStr (url r)] |}
             (sent (insights_request u metric tok) w)).
Proof.
  intros Hnet Hcode.
  rewrite (get_insights_total_answered _ _ _ _ _ Hnet).
  destruct (Z.eqb_spec (status_code r) 200); [contradiction|reflexivity].
Qed.

Lemma get_insights_total_server_error :
  fst (get_insights_total Scenario.article "all_views" Scenario.token
         (Scenario.fresh (Scenario.always Scenario.server_error)))
  = Raise (SystemExit 1).
Proof.
  rewrite (get_insights_total_http_error
             Scenario.article "all_views" Scenario.token
             (Scenario.fresh (Scenario.always Scenario.server_error))
             Scenario.server_error).
  - reflexivity.
  - reflexivity.
  - simpl. lia.
Defined.

(** C5, as the code has it: on status 200, when a key of the path
    instant_article.insights.data is missing from the dict it is looked up
    in, the function prints its notice and returns 0. *)
Theorem get_insights_total_missing_key u metric tok w r :
  network w (requests_made w) (insights_request u metric tok) = Ret r ->
  status_code r = 200 ->
  insights_data r = Raise KeyError ->
  get_insights_total u metric tok w
  = (Ret 0,
     printed {| format := no_data_message;
                args := [PStr metric; PStr (url r)] |}
             (sent (insights_request u metric tok) w)).
Proof.
  intros Hnet Hcode Hdata.
  rewrite (get_insights_total_answered _ _ _ _ _ Hnet), Hcode, Hdata.
  reflexivity.
Qed.

Lemma get_insights_total_no_article :
  fst (get_insights_total Scenario.article "all_views" Scenario.token
         (Scenario.fresh (Scenario.always Scenario.no_article)))
  = Ret 0.
Proof.
  rewrite (get_insights_total_missing_key
             Scenario.article "all_views" Scenario.token
             (Scenario.fresh (Scenario.always Scenario.no_article))
             Scenario.no_article).
  - reflexivity.
  - reflexivity.
  - reflexivity.
  - reflexivity.
Defined.

(** The body [{"instant_article": null}] comes with status 200 and has no
    instant_article.insights.data, yet the function does not return 0:
    subscripting [None] raises [TypeError], which [except KeyError] lets
    through. *)
Lemma get_insights_total_null_article :
  status_code Scenario.null_article = 200
  /\ json Scenario.null_article = Ret (PDict [("instant_article", PNone)])
  /\ insights_data Scenario.null_article = Raise TypeError
  /\ get_insights_total Scenario.article "all_views" Scenario.token
       (Scenario.fresh (Scenario.always Scenario.null_article))
     = (Raise TypeError,
        sent (insights_request Scenario.article "all_views" Scenario.token)
             (Scenario.fresh (Scenario.always Scenario.null_article)))
  /\ fst (get_insights_total Scenario.article "all_views" Scenario.token
            (Scenario.fresh (Scenario.always Scenario.null_article)))
     <> Ret 0.
Proof. repeat split. discriminate. Qed.

Lemma sum_values_nonnegative days :
  Forall nonnegative_value days ->
  forall metric_total z,
    sum_values days metric_total = Ret z -> metric_total <= z.
Proof.
  induction 1 as [|day days Hday _ IH]; intros acc z; simpl.
  - intros [= <-]. lia.
  - destruct (getitem "value" day) as [v|] eqn:Hv; simpl; [|discriminate].
    destruct (int v) as [n|] eqn:Hn; simpl; [|discriminate].
    intros Hrest. apply IH in Hrest. specialize (Hday v n Hv Hn). lia.
Qed.

(** C4, as the code has it: the total is not negative when none of the
    values that were read is; the function itself never checks a sign. *)
Theorem get_insights_total_nonnegative u metric tok w r z :
  network w (requests_made w) (insights_request u metric tok) = Ret r ->
  (forall views days,
      insights_data r = Ret views -> iter views = Ret days ->
      Forall nonnegative_value days) ->
  fst (get_insights_total u metric tok w) = Ret z ->
  0 <= z.
Proof.
  intros Hnet Hvalues.
  rewrite (get_insights_total_answered _ _ _ _ _ Hnet). simpl.
  destruct (status_code r =? 200); simpl; [|discriminate].
  destruct (insights_data r) as [views|e].
  - simpl. destruct (iter views) as [days|] eqn:Hiter; simpl; [|discriminate].
    apply sum_values_nonnegative. apply (Hvalues views days eq_refl Hiter).
  - destruct e; simpl; try discriminate. intros [= <-]. lia.
Qed.

Lemma nonnegative_three_and_five :
  fst (get_insights_total Scenario.article "all_views" Scenario.token
         (Scenario.fresh (Scenario.always Scenario.three_and_five)))
  = Ret 8
  /\ 0 <= 8.
Proof.
  split; [reflexivity|].
  apply (get_insights_total_nonnegative
           Scenario.article "all_views" Scenario.token
           (Scenario.fresh (Scenario.always Scenario.three_and_five))
           Scenario.three_and_five 8).
  - reflexivity.
  - intros views days [= <-] [= <-].
    repeat apply Forall_cons; try apply Forall_nil; intros v z Hv Hz;
      cbv in Hv; injection Hv as <-; cbv in Hz; injection Hz as <-; lia.
  - reflexivity.
Defined.

(** The datapoint [{value:"-3"}] is summed like any other: the function
    returns normally, and returns -3. *)
Lemma get_insights_total_minus_three :
  get_insights_total Scenario.article "all_views" Scenario.token
    (Scenario.fresh (Scenario.always Scenario.minus_three))
  = (Ret (-3),
     sent (insights_request Scenario.article "all_views" Scenario.token)
          (Scenario.fresh (Scenario.always Scenario.minus_three)))
  /\ ~ 0 <= -3.
Proof. split; [reflexivity|lia]. Qed.

(** ** The token manager *)

(** What the first exchange does once the network has answered [r]. *)
Lemma get_long_lived_user_token_answered w r :
  network w (requests_made w) (user_token_request w) = Ret r ->
  get_long_lived_user_token w
  = let w1 := sent (user_token_request w) (printed exchanging w) in
    match token_field (text r) with
    | Ret user_token => (Ret user_token, w1)
    | Raise IndexError =>
        (Raise (SystemExit 1),
         printed {| format := user_token_failed_message;
                    args := [PStr (text r); PStr (url r)] |} w1)
    | Raise e => (Raise e, w1)
    end.
Proof.
  intros Hnet.
  unfold get_long_lived_user_token, bind, print, environ_get, requests_get,
    try_except, lift.
  unfold user_token_request, oauth_request, getenv in *. simpl in *.
  rewrite Hnet.
  destruct (token_field (text r)) as [t|[]]; reflexivity.
Qed.

(** A body without ['='] has no second piece, hence no token field. *)
Lemma split_without_separator sep body :
  ~ In sep (list_ascii_of_string body) -> split sep body = [body].
Proof.
  induction body as [|c body IH]; simpl; intros Hsep; [reflexivity|].
  destruct (Ascii.eqb_spec c sep) as [->|_].
  - exfalso. apply Hsep. now left.
  - rewrite IH; [reflexivity|]. intros Hin. apply Hsep. now right.
Qed.

Lemma token_field_without_equals body :
  ~ In "="%char (list_ascii_of_string body) ->
  token_field body = Raise IndexError.
Proof.
  intros Hsep. unfold token_field.
  rewrite (split_without_separator _ _ Hsep). reflexivity.
Qed.

(** C7: with a row of type page_token in the credentials table, the
    function returns that row's token as stored; it only prints its first
    message: no request is sent and no table changes. *)
Theorem get_page_access_token_cached w token_row cached :
  find_one "type" (PStr "page_token") (credentials w) = Some token_row ->
  lookup "token" token_row = Some cached ->
  get_page_access_token w = (Ret cached, printed getting w)
  /\ requests_made (printed getting w) = requests_made w
  /\ credentials (printed getting w) = credentials w
  /\ fbia (printed getting w) = fbia w.
Proof.
  intros Hrow Htoken. repeat split.
  unfold get_page_access_token, bind, print, credentials_find_one, lift.
  simpl. rewrite Hrow. simpl. rewrite Htoken. reflexivity.
Qed.

Lemma get_page_access_token_cached_offline :
  get_page_access_token (Scenario.with_token Scenario.unreachable)
  = (Ret (PStr "cached"),
     printed getting (Scenario.with_token Scenario.unreachable)).
Proof.
  apply (get_page_access_token_cached
           (Scenario.with_token Scenario.unreachable)
           (page_token_row (PStr "cached")) (PStr "cached")).
  - reflexivity.
  - reflexivity.
Defined.

(** What the second exchange does once the first gave [user_token] and the
    network has answered [r2]. *)
Lemma get_page_access_token_answered w r1 user_token r2 :
  find_one "type" (PStr "page_token") (credentials w) = None ->
  network w (requests_made w) (user_token_request w) = Ret r1 ->
  token_field (text r1) = Ret user_token ->
  network w (requests_made w ++ [user_token_request w])%list
          (page_token_request user_token) = Ret r2 ->
  get_page_access_token w
  = let w2 := sent (page_token_request user_token)
                (sent (user_token_request w)
                   (printed exchanging (printed fetching (printed getting w))))
    in
    let failed := {| format := page_token_failed_message;
                     args := [PStr (text r2)] |} in
    match obind (json r2) (getitem "access_token") with
    | Ret page_token =>
        let call := Insert "credentials" (page_token_row page_token) in
        match database w (store_log w) call with
        | Ret kept =>
            (Ret page_token,
             with_credentials (insert kept (credentials w))
               (logged call (Ret kept) w2))
        | Raise KeyError =>
            (Raise (SystemExit 1),
             printed failed (logged call (Raise KeyError) w2))
        | Raise e => (Raise e, logged call (Raise e) w2)
        end
    | Raise KeyError => (Raise (SystemExit 1), printed failed w2)
    | Raise e => (Raise e, w2)
    end.
Proof.
  intros Hrow Hnet1 Hfield Hnet2.
  unfold get_page_access_token, bind at 1 2, print at 1, credentials_find_one.
  cbn [printed credentials]. rewrite Hrow.
  unfold bind at 1 2, print at 1.
  rewrite (get_long_lived_user_token_answered _ r1) by exact Hnet1.
  rewrite Hfield. cbv zeta. unfold bind at 1, requests_get.
  match goal with
  | |- context [network ?a ?b ?c] =>
      change (network a b c)
        with (network w (requests_made w ++ [user_token_request w])%list
                      (page_token_request user_token))
  end.
  rewrite Hnet2.
  unfold credentials_insert, store_write, try_except, bind, lift.
  destruct (obind (json r2) (getitem "access_token")) as [t|[]];
    try reflexivity.
  cbn [sent printed database store_log]. cbv zeta.
  destruct (database w (store_log w) (Insert "credentials" (page_token_row t)))
    as [kept|[]]; reflexivity.
Qed.

(** What the function does when the first exchange finds no token field. *)
Lemma get_page_access_token_no_field w r1 :
  find_one "type" (PStr "page_token") (credentials w) = None ->
  network w (requests_made w) (user_token_request w) = Ret r1 ->
  token_field (text r1) = Raise IndexError ->
  get_page_access_token w
  = (Raise (SystemExit 1),
     printed {| format := user_token_failed_message;
                args := [PStr (text r1); PStr (url r1)] |}
       (sent (user_token_request w)
          (printed exchanging (printed fetching (printed getting w))))).
Proof.
  intros Hrow Hnet1 Hfield.
  unfold get_page_access_token, bind at 1 2, print at 1, credentials_find_one.
  cbn [printed credentials]. rewrite Hrow.
  unfold bind at 1 2, print at 1.
  rewrite (get_long_lived_user_token_answered _ r1) by exact Hnet1.
  rewrite Hfield. reflexivity.
Qed.



(** A page token that the store cannot bind, here the list of the body
    [{"access_token": ["page"]}]: the insert raises, out of the function,
    and no row is stored. *)
Example get_page_access_token_unbound :
  let w := Scenario.fresh
             (Scenario.first_then Scenario.oauth_answer
                (Scenario.page_answer
                   ("{" ++ Scenario.quoted "access_token" ++ ": ["
                        ++ Scenario.quoted "page" ++ "]}")
                   (PDict [("access_token", PList [PStr "page"])]))) in
  fst (get_page_access_token w) = Raise (LibraryError "InterfaceError")
  /\ credentials (snd (get_page_access_token w)) = [].
Proof. split; reflexivity. Qed.


(** C9, as the code has it: a first body without ['='], or a second body
    that is a JSON object without the key ['access_token'], makes the
    function print the raw body and leave through [sys.exit(1)], with the
    credentials table as it was. *)
Theorem get_page_access_token_malformed w r1 :
  find_one "type" (PStr "page_token") (credentials w) = None ->
  network w (requests_made w) (user_token_request w) = Ret r1 ->
  (~ In "="%char (list_ascii_of_string (text r1)) ->
   fst (get_page_access_token w) = Raise (SystemExit 1)
   /\ stdout (snd (get_page_access_token w))
      = (stdout w
         ++ [getting; fetching; exchanging;
             {| format := user_token_failed_message;
                args := [PStr (text r1); PStr (url r1)] |}])%list
   /\ credentials (snd (get_page_access_token w)) = credentials w)
  /\ (forall user_token r2 body,
        token_field (text r1) = Ret user_token ->
        network w (requests_made w ++ [user_token_request w])%list
                (page_token_request user_token) = Ret r2 ->
        json r2 = Ret (PDict body) ->
        lookup "access_token" body = None ->
        fst (get_page_access_token w) = Raise (SystemExit 1)
        /\ stdout (snd (get_page_access_token w))
           = (stdout w
              ++ [getting; fetching; exchanging;
                  {| format := page_token_failed_message;
                     args := [PStr (text r2)] |}])%list
        /\ credentials (snd (get_page_access_token w)) = credentials w).
Proof.
  intros Hrow Hnet1. split.
  - intros Hsep. apply token_field_without_equals in Hsep.
    rewrite (get_page_access_token_no_field _ _ Hrow Hnet1 Hsep). simpl.
    repeat split. now rewrite <- !app_assoc.
  - intros user_token r2 body Hfield Hnet2 Hjson Hkey.
    rewrite (get_page_access_token_answered _ _ _ _ Hrow Hnet1 Hfield Hnet2).
    rewrite Hjson. simpl. rewrite Hkey. simpl.
    repeat split. now rewrite <- !app_assoc.
Qed.

Lemma get_page_access_token_refused_or_denied :
  fst (get_page_access_token
         (Scenario.fresh (Scenario.always Scenario.oauth_error)))
  = Raise (SystemExit 1)
  /\ fst (get_page_access_token
            (Scenario.fresh
               (Scenario.first_then Scenario.oauth_answer
                                    Scenario.page_denied_answer)))
     = Raise (SystemExit 1).
Proof.
  split.
  - apply (proj1 (get_page_access_token_malformed
                    (Scenario.fresh (Scenario.always Scenario.oauth_error))
                    Scenario.oauth_error eq_refl eq_refl)).
    simpl. intros H.
    repeat (destruct H as [H|H]; [discriminate H|]). exact H.
  - apply (proj2 (get_page_access_token_malformed
                    (Scenario.fresh
                       (Scenario.first_then Scenario.oauth_answer
                                            Scenario.page_denied_answer))
                    Scenario.oauth_answer eq_refl eq_refl)
                 "abc" Scenario.page_denied_answer
                 [("error", PStr "denied")]).
    + reflexivity.
    + reflexivity.
    + reflexivity.
    + reflexivity.
Defined.

(** The second exchange is answered with the JSON body [[]], which has no
    ['access_token'] key: subscripting the list raises [TypeError], which
    [except KeyError] lets through.  Only the three progress lines were
    printed, not the body; nothing was stored. *)
Lemma get_page_access_token_list_body :
  json Scenario.page_list_answer = Ret (PList [])
  /\ getitem "access_token" (PList []) = Raise TypeError
  /\ fst (get_page_access_token
            (Scenario.fresh
               (Scenario.first_then Scenario.oauth_answer
                                    Scenario.page_list_answer)))
     = Raise TypeError
  /\ stdout
       (snd (get_page_access_token
               (Scenario.fresh
                  (Scenario.first_then Scenario.oauth_answer
                                       Scenario.page_list_answer))))
     = [getting; fetching; exchanging]
  /\ credentials
       (snd (get_page_access_token
               (Scenario.fresh
                  (Scenario.first_then Scenario.oauth_answer
                                       Scenario.page_list_answer))))
     = [].
Proof. repeat split. Qed.

(** ** The feed fetcher *)

(** C10: whatever the status of the answer to the feed request, the
    function hands the body to the XML parser and returns what the parser
    returns; the status is never read. *)
Theorem get_facebook_feed_any_status parse w r :
  network w (requests_made w) (feed_request w) = Ret r ->
  get_facebook_feed parse w
  = (parse (text r),
     sent (feed_request w)
       (printed {| format := feed_message;
                   args := [getenv w "FEED_URL"] |} w)).
Proof.
  intros Hnet.
  unfold get_facebook_feed, bind, environ_get, print, requests_get, lift.
  unfold feed_request in Hnet. simpl. rewrite Hnet. reflexivity.
Qed.

Lemma get_facebook_feed_not_found :
  fst (get_facebook_feed (Scenario.reads_as Scenario.html_page)
         (Scenario.fresh (Scenario.always Scenario.not_found)))
  = Ret Scenario.html_page.
Proof.
  rewrite (get_facebook_feed_any_status
             (Scenario.reads_as Scenario.html_page)
             (Scenario.fresh (Scenario.always Scenario.not_found))
             Scenario.not_found).
  - reflexivity.
  - reflexivity.
Defined.

(** ** The store *)

Lemma float_eqb_eq x y : float_eqb x y = true <-> x = y.
Proof.
  destruct x, y; simpl; try (split; [discriminate|discriminate]);
    try (split; reflexivity).
  - rewrite Bool.eqb_true_iff. split; congruence.
  - rewrite Bool.eqb_true_iff. split; congruence.
  - rewrite !andb_true_iff, Bool.eqb_true_iff, Pos.eqb_eq, Z.eqb_eq.
    split; [intros [[-> ->] ->]; reflexivity | intros [= -> -> ->]; auto].
Qed.

(** Induction on a value with the hypotheses for what its list or dict
    holds. *)
Lemma pyval_induction (P : pyval -> Prop) :
  P PNone ->
  (forall b, P (PBool b)) ->
  (forall z, P (PInt z)) ->
  (forall f, P (PFloat f)) ->
  (forall s, P (PStr s)) ->
  (forall l, Forall P l -> P (PList l)) ->
  (forall d, Forall (fun kv => P (snd kv)) d -> P (PDict d)) ->
  forall v, P v.
Proof.
  intros HNone HBool HInt HFloat HStr HList HDict.
  fix IH 1. intros [ | b | z | f | s | l | d].
  - exact HNone.
  - apply HBool.
  - apply HInt.
  - apply HFloat.
  - apply HStr.
  - apply HList. induction l as [|x l IHl]; constructor; [apply IH | exact IHl].
  - apply HDict.
    induction d as [|[k x] d IHd]; constructor; [apply IH | exact IHd].
Qed.

Lemma pyval_eqb_eq a : forall b, pyval_eqb a b = true <-> a = b.
Proof.
  induction a as [ | x | x | x | x | l IHl | d IHd] using pyval_induction;
    intros [ | y | y | y | y | m | e]; simpl;
    try (split; [discriminate|discriminate]).
  - split; reflexivity.
  - rewrite Bool.eqb_true_iff. split; congruence.
  - rewrite Z.eqb_eq. split; congruence.
  - rewrite float_eqb_eq. split; congruence.
  - rewrite String.eqb_eq. split; congruence.
  - revert m. induction IHl as [|u l Hu _ IHl]; intros [|v m];
      try (split; [discriminate|discriminate]).
    + split; reflexivity.
    + rewrite andb_true_iff, Hu, IHl.
      split; [intros [-> [= ->]]; reflexivity | intros [= -> ->]; auto].
  - revert e. induction IHd as [|[j u] d Hu _ IHd]; intros [|[k v] e];
      try (split; [discriminate|discriminate]).
    + split; reflexivity.
    + simpl in Hu. rewrite !andb_true_iff, String.eqb_eq, Hu, IHd.
      split; [intros [[-> ->] [= ->]]; reflexivity | intros [= -> -> ->]; auto].
Qed.

Lemma pyval_eqb_refl a : pyval_eqb a a = true.
Proof. now apply pyval_eqb_eq. Qed.

Lemma column_is_true col v r :
  column_is col v r = true <-> lookup col r = Some v.
Proof.
  unfold column_is. destruct (lookup col r) as [x|].
  - rewrite pyval_eqb_eq. split; congruence.
  - split; discriminate.
Qed.

Lemma lookup_dict_set_same {V} k (v : V) d : lookup k (dict_set k v d) = Some v.
Proof.
  induction d as [|[k' v'] d IH]; simpl.
  - now rewrite String.eqb_refl.
  - destruct (String.eqb_spec k k') as [->|Hk]; simpl.
    + now rewrite String.eqb_refl.
    + destruct (String.eqb_spec k k'); [contradiction|exact IH].
Qed.

Lemma lookup_dict_set_other {V} c k (v : V) d :
  c <> k -> lookup c (dict_set k v d) = lookup c d.
Proof.
  intros Hc. induction d as [|[k' v'] d IH]; simpl.
  - destruct (String.eqb_spec c k); [contradiction|reflexivity].
  - destruct (String.eqb_spec k k') as [->|Hk]; simpl.
    + destruct (String.eqb_spec c k'); [contradiction|reflexivity].
    + destruct (String.eqb_spec c k'); [reflexivity|exact IH].
Qed.



Lemma lookup_update_row_key keys new : forall old c,
  is_key keys c = true ->
  lookup c (update_row keys new old) = lookup c old.
Proof.
  unfold update_row.
  induction new as [|[k v] new IH]; intros old c Hc; simpl; [reflexivity|].
  rewrite (IH _ _ Hc).
  destruct (is_key keys k) eqn:Hk; [reflexivity|].
  apply lookup_dict_set_other. intros ->. congruence.
Qed.

Lemma matches_id new old :
  matches ["id"] new old
  = match lookup "id" new with
    | Some g => column_is "id" g old
    | None => false
    end.
Proof.
  unfold matches. simpl.
  destruct (lookup "id" new); [apply andb_true_r|reflexivity].
Qed.

(** An update leaves the article ID of a row alone. *)
Lemma column_is_id_update_row g new old :
  column_is "id" g (update_row ["id"] new old) = column_is "id" g old.
Proof.
  unfold column_is. now rewrite lookup_update_row_key.
Qed.

Lemma rows_with_id_app g t t' :
  rows_with_id g (t ++ t')%list
  = (rows_with_id g t ++ rows_with_id g t')%list.
Proof. apply filter_app. Qed.

Lemma rows_with_id_update g new t :
  rows_with_id g (update new ["id"] t)
  = map (fun old => if matches ["id"] new old then update_row ["id"] new old
                    else old)
        (rows_with_id g t).
Proof.
  unfold rows_with_id, update.
  induction t as [|old t IH]; cbn [map filter]; [reflexivity|].
  destruct (matches ["id"] new old) eqn:Hmatch.
  - rewrite column_is_id_update_row.
    destruct (column_is "id" g old); cbn [map]; now rewrite IH, ?Hmatch.
  - destruct (column_is "id" g old); cbn [map]; now rewrite IH, ?Hmatch.
Qed.

Lemma no_match_no_rows g new t :
  lookup "id" new = Some g ->
  existsb (matches ["id"] new) t = false ->
  rows_with_id g t = [].
Proof.
  intros Hid. unfold rows_with_id.
  induction t as [|old t IH]; cbn [existsb filter]; [reflexivity|].
  rewrite orb_false_iff, matches_id, Hid. intros [-> Hrest]. now apply IH.
Qed.


(** The invariant of the insights table, kept by every upsert on ['id']. *)
Lemma upsert_unique_ids new t :
  unique_ids t -> unique_ids (upsert new ["id"] t).
Proof.
  intros Ht g. unfold upsert.
  destruct (existsb (matches ["id"] new) t) eqn:Hmatch.
  - rewrite rows_with_id_update, length_map. apply Ht.
  - unfold insert. rewrite rows_with_id_app, length_app.
    unfold rows_with_id at 2. simpl.
    destruct (column_is "id" g new) eqn:Hg; simpl.
    + apply column_is_true in Hg.
      rewrite (no_match_no_rows _ _ _ Hg Hmatch). simpl. lia.
    + specialize (Ht g). lia.
Qed.

(** An upsert for another article leaves the rows of [g] as they are. *)
Lemma upsert_rows_with_id_other g g' new t :
  lookup "id" new = Some g' -> g <> g' ->
  rows_with_id g (upsert new ["id"] t) = rows_with_id g t.
Proof.
  intros Hid Hg. unfold upsert.
  destruct (existsb (matches ["id"] new) t).
  - rewrite rows_with_id_update.
    rewrite <- (map_id (rows_with_id g t)) at 2.
    apply map_ext_in. intros old Hold.
    apply filter_In in Hold. destruct Hold as [_ Hold].
    rewrite matches_id, Hid.
    destruct (column_is "id" g' old) eqn:Hold'; [|reflexivity].
    apply column_is_true in Hold, Hold'. congruence.
  - unfold insert. rewrite rows_with_id_app.
    unfold rows_with_id at 2. simpl.
    destruct (column_is "id" g new) eqn:Hnew'.
    + apply column_is_true in Hnew'. congruence.
    + apply app_nil_r.
Qed.


(** ** What a step leaves alone *)

Section Related.

Variable R : world -> world -> Prop.
Hypothesis R_refl : forall w, R w w.
Hypothesis R_trans : forall w1 w2 w3, R w1 w2 -> R w2 w3 -> R w1 w3.

Lemma related_ret {A} (a : A) : always_related R (ret a).
Proof. intros w. apply R_refl. Qed.

Lemma related_raise {A} e : always_related R (@raise A e).
Proof. intros w. apply R_refl. Qed.

Lemma related_lift {A} (o : outcome A) : always_related R (lift o).
Proof. intros w. apply R_refl. Qed.

Lemma related_environ_get name : always_related R (environ_get name).
Proof. intros w. apply R_refl. Qed.

Lemma related_bind {A B} (m : M A) (k : A -> M B) :
  always_related R m -> (forall a, always_related R (k a)) ->
  always_related R (bind m k).
Proof.
  intros Hm Hk w. unfold bind. specialize (Hm w).
  destruct (m w) as [[a|e] w1]; simpl in *; [|exact Hm].
  exact (R_trans _ _ _ Hm (Hk a w1)).
Qed.

Lemma related_try_except {A} (body : M A) catches handler :
  always_related R body -> always_related R handler ->
  always_related R (try_except body catches handler).
Proof.
  intros Hbody Hhandler w. unfold try_except. specialize (Hbody w).
  destruct (body w) as [[a|e] w1]; simpl in *; [exact Hbody|].
  destruct (catches e); [|exact Hbody].
  exact (R_trans _ _ _ Hbody (Hhandler w1)).
Qed.

Hypothesis R_printed : forall l w, R w (printed l w).
Hypothesis R_sent : forall rq w, R w (sent rq w).

Lemma related_print fmt a : always_related R (print fmt a).
Proof. intros w. apply R_printed. Qed.

Lemma related_requests_get rq : always_related R (requests_get rq).
Proof. intros w. apply R_sent. Qed.

Lemma related_get_insights_total u metric tok :
  always_related R (get_insights_total u metric tok).
Proof.
  unfold get_insights_total.
  apply related_bind; [apply related_requests_get|]. intros r.
  destruct (negb (status_code r =? 200)).
  - apply related_bind; [apply related_print|]. intros _. apply related_raise.
  - apply related_bind.
    + apply related_try_except.
      * apply related_bind; [apply related_lift|]. intros v. apply related_ret.
      * apply related_bind; [apply related_print|]. intros _. apply related_ret.
    + intros [views|]; [apply related_lift|apply related_ret].
Qed.

Lemma related_get_long_lived_user_token :
  always_related R get_long_lived_user_token.
Proof.
  unfold get_long_lived_user_token.
  apply related_bind; [apply related_print|]. intros _.
  apply related_bind; [apply related_environ_get|]. intros client_id.
  apply related_bind; [apply related_environ_get|]. intros client_secret.
  apply related_bind; [apply related_environ_get|]. intros fb_exchange_token.
  apply related_bind; [apply related_requests_get|]. intros r.
  apply related_try_except; [apply related_lift|].
  apply related_bind; [apply related_print|]. intros _. apply related_raise.
Qed.

Lemma related_get_facebook_feed parse :
  always_related R (get_facebook_feed parse).
Proof.
  unfold get_facebook_feed.
  apply related_bind; [apply related_environ_get|]. intros feed_url.
  apply related_bind; [apply related_print|]. intros _.
  apply related_bind; [apply related_requests_get|]. intros r.
  apply related_lift.
Qed.

Lemma related_insights_row feed_item tok :
  always_related R (insights_row feed_item tok).
Proof.
  unfold insights_row.
  repeat (apply related_bind;
          [first [apply related_lift | apply related_get_insights_total]|];
          intros ?).
  apply related_ret.
Qed.

End Related.

Lemma same_tables_refl w : same_tables w w.
Proof. now split. Qed.

Lemma same_tables_trans w1 w2 w3 :
  same_tables w1 w2 -> same_tables w2 w3 -> same_tables w1 w3.
Proof. intros [H1 H2] [H3 H4]. split; congruence. Qed.

Lemma same_tables_printed l w : same_tables w (printed l w).
Proof. now split. Qed.

Lemma same_tables_sent rq w : same_tables w (sent rq w).
Proof. now split. Qed.

Ltac same_tables_with lemma :=
  apply (lemma same_tables same_tables_refl same_tables_trans
               same_tables_printed same_tables_sent).

(** X1: the functions that only ask and read never write: whatever the
    network, the parser and the bodies do, [get_insights_total],
    [get_long_lived_user_token] and [get_facebook_feed] leave the
    credentials table and the insights table as they found them. *)
Theorem readers_keep_tables u metric tok parse w :
  same_tables w (snd (get_insights_total u metric tok w))
  /\ same_tables w (snd (get_long_lived_user_token w))
  /\ same_tables w (snd (get_facebook_feed parse w)).
Proof.
  split; [|split].
  - same_tables_with related_get_insights_total.
  - same_tables_with related_get_long_lived_user_token.
  - same_tables_with related_get_facebook_feed.
Qed.

(** ** The insights collector *)

Lemma bind_returns {A B} (m : M A) (k : A -> M B) w b w2 :
  bind m k w = (Ret b, w2) ->
  exists a w1, m w = (Ret a, w1) /\ k a w1 = (Ret b, w2).
Proof.
  unfold bind. destruct (m w) as [[a|e] w1]; [|discriminate].
  intros Hk. now exists a, w1.
Qed.

Lemma lift_returns {A} (o : outcome A) w a w1 :
  lift o w = (Ret a, w1) -> o = Ret a /\ w1 = w.
Proof. unfold lift. intros [= -> ->]. now split. Qed.

Lemma print_returns fmt a w u w' :
  print fmt a w = (Ret u, w') ->
  w' = printed {| format := fmt; args := a |} w.
Proof. unfold print. now intros [= <-]. Qed.

Ltac returns H :=
  repeat match type of H with
         | bind (lift _) _ _ = (Ret _, _) =>
             let a := fresh "a" in
             let w := fresh "w" in
             let Ha := fresh "H" a in
             apply bind_returns in H; destruct H as (a & w & Ha & H);
             apply lift_returns in Ha; destruct Ha as [Ha ->]
         | bind _ _ _ = (Ret _, _) =>
             let a := fresh "a" in
             let w := fresh "w" in
             let Ha := fresh "H" a in
             apply bind_returns in H; destruct H as (a & w & Ha & H)
         end.

Lemma for_each_app {A} (body : A -> M unit) done rest : forall w,
  for_each body (done ++ rest)%list w
  = match for_each body done w with
    | (Ret _, w1) => for_each body rest w1
    | (Raise e, w1) => (Raise e, w1)
    end.
Proof.
  induction done as [|x done IH]; intros w; [reflexivity|].
  cbn [for_each app]. unfold bind.
  destruct (body x w) as [[[]|e] w1]; [apply IH|reflexivity].
Qed.

Lemma get_insights_returns parsed_feed tok w w' :
  get_insights parsed_feed tok w = (Ret tt, w') ->
  exists items,
    feed_items parsed_feed = Ret items
    /\ for_each (collect_item tok) items (printed collecting w) = (Ret tt, w').
Proof.
  intros Hrun. unfold get_insights in Hrun. returns Hrun.
  apply print_returns in Ha. subst w0. now exists a0.
Qed.

(** *** What the readers leave alone in the store *)







(** *** Upserts in a row *)

Lemma stored_rows_app log log' :
  stored_rows (log ++ log') = (stored_rows log ++ stored_rows log')%list.
Proof. apply flat_map_app. Qed.

Lemma upsert_all_app rows rows' t :
  upsert_all (rows ++ rows') t = upsert_all rows' (upsert_all rows t).
Proof. apply fold_left_app. Qed.

Lemma upsert_all_unique_ids rows : forall t,
  unique_ids t -> unique_ids (upsert_all rows t).
Proof.
  induction rows as [|r rows IH]; intros t Ht; [exact Ht|].
  apply IH. now apply upsert_unique_ids.
Qed.

Lemma upsert_never_deletes g new t :
  (List.length (rows_with_id g t)
   <= List.length (rows_with_id g (upsert new ["id"] t)))%nat.
Proof.
  unfold upsert. destruct (existsb (matches ["id"] new) t).
  - now rewrite rows_with_id_update, length_map.
  - unfold insert. rewrite rows_with_id_app, length_app. lia.
Qed.

Lemma upsert_all_never_deletes g rows : forall t,
  (List.length (rows_with_id g t)
   <= List.length (rows_with_id g (upsert_all rows t)))%nat.
Proof.
  induction rows as [|r rows IH]; intros t; [reflexivity|].
  simpl. etransitivity; [apply (upsert_never_deletes g r)|apply IH].
Qed.

(** An upsert under another ID, or of a row without ID, leaves the rows of
    [g] as they are. *)
Lemma upsert_rows_with_id_apart g new t :
  lookup "id" new <> Some g ->
  rows_with_id g (upsert new ["id"] t) = rows_with_id g t.
Proof.
  intros Hid. destruct (lookup "id" new) as [g'|] eqn:Hnew.
  - apply (upsert_rows_with_id_other _ g'); congruence.
  - unfold upsert.
    assert (Hnone : existsb (matches ["id"] new) t = false).
    { induction t as [|old t IH]; [reflexivity|].
      cbn [existsb]. now rewrite matches_id, Hnew, IH. }
    rewrite Hnone. unfold insert. rewrite rows_with_id_app.
    unfold rows_with_id at 2. cbn [filter].
    unfold column_is. rewrite Hnew. apply app_nil_r.
Qed.

Lemma upsert_all_apart g rows : forall t,
  (forall r, In r rows -> lookup "id" r <> Some g) ->
  rows_with_id g (upsert_all rows t) = rows_with_id g t.
Proof.
  induction rows as [|r rows IH]; intros t Hall; [reflexivity|].
  simpl. rewrite IH by (intros x Hx; apply Hall; now right).
  apply upsert_rows_with_id_apart, Hall. now left.
Qed.



Lemma skipn_length_app {A} (l l' : list A) :
  skipn (List.length l) (l ++ l') = l'.
Proof. induction l as [|x l IH]; [reflexivity|exact IH]. Qed.


(** *** What the collector does to the store, however it ends *)

Lemma upserted_refl w : upserted w w.
Proof. exists []. now rewrite app_nil_r. Qed.

Lemma upserted_trans w1 w2 w3 :
  upserted w1 w2 -> upserted w2 w3 -> upserted w1 w3.
Proof.
  intros (l1 & Hl1 & Hf1 & Hc1 & Hd1) (l2 & Hl2 & Hf2 & Hc2 & Hd2).
  exists (l1 ++ l2)%list.
  rewrite Hl2, Hl1, Hf2, Hf1, stored_rows_app, upsert_all_app, app_assoc.
  repeat split; congruence.
Qed.

Lemma upserted_printed l w : upserted w (printed l w).
Proof. exists []. simpl. now rewrite app_nil_r. Qed.

Lemma upserted_sent rq w : upserted w (sent rq w).
Proof. exists []. simpl. now rewrite app_nil_r. Qed.

Lemma fbia_upsert_upserted r : always_related upserted (fbia_upsert r ["id"]).
Proof.
  intros w. unfold fbia_upsert, bind, store_write.
  destruct (database w (store_log w) (Upsert "fbia" r ["id"])) as [kept|e]
    eqn:Hanswer.
  - exists [(Upsert "fbia" r ["id"], Ret kept)]. now repeat split.
  - exists [(Upsert "fbia" r ["id"], Raise e)]. now repeat split.
Qed.

Lemma collect_item_upserted tok feed_item :
  always_related upserted (collect_item tok feed_item).
Proof.
  unfold collect_item.
  apply (related_bind upserted upserted_trans);
    [apply (related_lift upserted upserted_refl)|]. intros title.
  apply (related_bind upserted upserted_trans);
    [apply (related_print upserted upserted_printed)|]. intros _.
  apply (related_bind upserted upserted_trans);
    [|intros r; apply fbia_upsert_upserted].
  apply (related_insights_row upserted upserted_refl upserted_trans
                              upserted_printed upserted_sent).
Qed.

Lemma for_each_upserted tok items :
  always_related upserted (for_each (collect_item tok) items).
Proof.
  induction items as [|x rest IH].
  - apply (related_ret upserted upserted_refl).
  - cbn [for_each].
    apply (related_bind upserted upserted_trans);
      [apply collect_item_upserted|intros _; exact IH].
Qed.

Lemma get_insights_upserted parsed_feed tok :
  always_related upserted (get_insights parsed_feed tok).
Proof.
  unfold get_insights.
  apply (related_bind upserted upserted_trans);
    [apply (related_print upserted upserted_printed)|]. intros _.
  apply (related_bind upserted upserted_trans);
    [apply (related_lift upserted upserted_refl)|]. intros items.
  apply for_each_upserted.
Qed.

(** However a run ends, the insights table after it is the table before it
    with the rows the store kept during the run upserted in order, and the
    credentials are as before. *)
Lemma get_insights_written parsed_feed tok w :
  let w' := snd (get_insights parsed_feed tok w) in
  store_log w' = (store_log w ++ written_since w w')%list
  /\ fbia w' = upsert_all (stored_rows (written_since w w')) (fbia w)
  /\ credentials w' = credentials w.
Proof.
  cbv zeta.
  destruct (get_insights_upserted parsed_feed tok w)
    as (entries & Hlog & Hfbia & Hcredentials & _).
  unfold written_since. rewrite Hlog, skipn_length_app.
  now repeat split.
Qed.

(** *** One item *)



(** A feed of the two articles 101 and 102, collected twice over a network
    whose totals count the requests made: the first run stores the totals
    0, 1, 2 and 3, 4, 5, the second replaces them by 6, 7, 8 and 9, 10,
    11 in the same two rows.  The guids are the strings ['101'] and
    ['102']; the store keeps the rows under the integers. *)
Example first_run_inserts :
  get_insights Scenario.two_items Scenario.token
    (Scenario.fresh Scenario.counting)
  = (Ret tt, Sample.collected)
  /\ fbia Sample.collected
     = [[("id", PInt 101); ("Headline", PStr "First");
         ("Publication date", PStr "Fri, 15 Jan 2016");
         ("Author", PStr "Staff"); ("URL", PStr "http://x/1");
         ("Total views", PInt 0); ("Average view duration", PInt 1);
         ("Average scroll depth", PInt 2)];
        [("id", PInt 102); ("Headline", PStr "Second");
         ("Publication date", PStr "Sat, 16 Jan 2016");
         ("Author", PStr "Staff"); ("URL", PStr "http://x/2");
         ("Total views", PInt 3); ("Average view duration", PInt 4);
         ("Average scroll depth", PInt 5)]].
Proof. split; reflexivity. Qed.

Example second_run_replaces :
  get_insights Scenario.two_items Scenario.token Sample.collected
  = (Ret tt, Sample.collected_twice)
  /\ fbia Sample.collected_twice
     = [[("id", PInt 101); ("Headline", PStr "First");
         ("Publication date", PStr "Fri, 15 Jan 2016");
         ("Author", PStr "Staff"); ("URL", PStr "http://x/1");
         ("Total views", PInt 6); ("Average view duration", PInt 7);
         ("Average scroll depth", PInt 8)];
        [("id", PInt 102); ("Headline", PStr "Second");
         ("Publication date", PStr "Sat, 16 Jan 2016");
         ("Author", PStr "Staff"); ("URL", PStr "http://x/2");
         ("Total views", PInt 9); ("Average view duration", PInt 10);
         ("Average scroll depth", PInt 11)]].
Proof. split; reflexivity. Qed.



(** The guids [7] and [007] are one article to the store: both rows are
    kept under the integer 7, and the second replaces the totals of the
    first. *)
Example get_insights_seven_twice :
  fst (get_insights Sample.seven_twice Scenario.token
         (Scenario.fresh Scenario.counting))
  = Ret tt
  /\ fbia (snd (get_insights Sample.seven_twice Scenario.token
                  (Scenario.fresh Scenario.counting)))
     = [[("id", PInt 7); ("Headline", PStr "Later");
         ("Publication date", PStr "Fri, 15 Jan 2016");
         ("Author", PStr "Staff"); ("URL", PStr "http://x/7");
         ("Total views", PInt 3); ("Average view duration", PInt 4);
         ("Average scroll depth", PInt 5)]].
Proof. split; vm_compute; reflexivity. Qed.

(** The article of the specification's example, whose guid is [A1]: the
    column [id] of the insights table holds integers, so the store refuses
    the row, and the run ends on the exception with nothing stored. *)
Example get_insights_guid_a1 :
  fst (get_insights (Scenario.feed_of (PList [Scenario.item_a1]))
         Scenario.token (Scenario.fresh Scenario.counting))
  = Raise (LibraryError "IntegrityError")
  /\ fbia (snd (get_insights (Scenario.feed_of (PList [Scenario.item_a1]))
                  Scenario.token (Scenario.fresh Scenario.counting)))
     = [].
Proof. split; reflexivity. Qed.

(** ** More on [get_insights_total] *)

(** X2: of the exceptions that reading the data path can raise, only
    [KeyError] is turned into 0.  On status 200, any other one (a body that
    is not JSON, a value on the path that is not an object) leaves the
    function as it is, with nothing printed. *)
Theorem get_insights_total_other_errors u metric tok w r e :
  network w (requests_made w) (insights_request u metric tok) = Ret r ->
  status_code r = 200 ->
  insights_data r = Raise e ->
  e <> KeyError ->
  get_insights_total u metric tok w
  = (Raise e, sent (insights_request u metric tok) w).
Proof.
  intros Hnet Hcode Hdata He.
  rewrite (get_insights_total_answered _ _ _ _ _ Hnet), Hcode, Hdata.
  destruct e; try reflexivity. contradiction.
Qed.

Lemma get_insights_total_not_json :
  fst (get_insights_total Scenario.article "all_views" Scenario.token
         (Scenario.fresh (Scenario.always Sample.not_json)))
  = Raise ValueError.
Proof.
  rewrite (get_insights_total_other_errors
             Scenario.article "all_views" Scenario.token
             (Scenario.fresh (Scenario.always Sample.not_json))
             Sample.not_json ValueError).
  - reflexivity.
  - reflexivity.
  - reflexivity.
  - reflexivity.
  - discriminate.
Defined.

Lemma sum_values_first_failure good zs bad rest e :
  Forall2 datapoint good zs ->
  obind (getitem "value" bad) int = Raise e ->
  forall metric_total,
    sum_values (good ++ bad :: rest) metric_total = Raise e.
Proof.
  intros Hgood Hbad.
  induction Hgood as [|day z days zs [v [Hv Hz]] _ IH]; intros acc; simpl.
  - destruct (getitem "value" bad) as [v|e']; simpl in *.
    + now rewrite Hbad.
    + exact Hbad.
  - rewrite Hv. simpl. rewrite Hz. simpl. apply IH.
Qed.

(** X3: the loop stops at the first item that has no readable ['value'],
    with the exception of that item.  The handler for missing data is no
    longer around it: a datapoint without the key ['value'] raises
    [KeyError] out of the function, it does not count as 0.  The values
    before it, and its own if it has one, are plain, so that they read
    the same under every version of Python. *)
Theorem get_insights_total_bad_datapoint u metric tok w r good zs bad rest e :
  network w (requests_made w) (insights_request u metric tok) = Ret r ->
  status_code r = 200 ->
  insights_data r = Ret (PList (good ++ bad :: rest)) ->
  Forall2 plain_datapoint good zs ->
  (forall v, getitem "value" bad = Ret v -> plain_value v = true) ->
  obind (getitem "value" bad) int = Raise e ->
  get_insights_total u metric tok w
  = (Raise e, sent (insights_request u metric tok) w).
Proof.
  intros Hnet Hcode Hdata Hgood _ Hbad.
  rewrite (get_insights_total_answered _ _ _ _ _ Hnet), Hcode, Hdata.
  simpl.
  now rewrite (sum_values_first_failure _ _ _ _ _
                 (plain_datapoints _ _ Hgood) Hbad).
Qed.

Lemma get_insights_total_value_then_name :
  fst (get_insights_total Scenario.article "all_views" Scenario.token
         (Scenario.fresh (Scenario.always Sample.value_then_name)))
  = Raise KeyError.
Proof.
  rewrite (get_insights_total_bad_datapoint
             Scenario.article "all_views" Scenario.token
             (Scenario.fresh (Scenario.always Sample.value_then_name))
             Sample.value_then_name
             [PDict [("value", PStr "3")]] [3]
             (PDict [("name", PStr "x")]) [] KeyError).
  - reflexivity.
  - reflexivity.
  - reflexivity.
  - reflexivity.
  - repeat constructor. exists (PStr "3"). repeat split; reflexivity.
  - intros v Hvalue. discriminate Hvalue.
  - reflexivity.
Defined.

Lemma sum_values_permutation days days' :
  Permutation days days' ->
  Forall (fun day => exists z, datapoint day z) days ->
  forall metric_total,
    sum_values days metric_total = sum_values days' metric_total.
Proof.
  induction 1 as [|x l l' Hl IH|x y l|l l' l'' H1 IH1 H2 IH2];
    intros Hall acc.
  - reflexivity.
  - simpl. inversion Hall as [|? ? [z [v [Hv Hz]]] Hrest]; subst.
    rewrite Hv. simpl. rewrite Hz. simpl. now apply IH.
  - inversion Hall as [|? ? [zy [vy [Hvy Hzy]]] Hrest]; subst.
    inversion Hrest as [|? ? [zx [vx [Hvx Hzx]]] _]; subst.
    simpl. rewrite Hvy, Hvx. simpl. rewrite Hzy, Hzx. simpl.
    f_equal. lia.
  - rewrite (IH1 Hall). apply IH2.
    exact (Permutation_Forall H1 Hall).
Qed.

(** X4: the total does not depend on the order in which the API lists the
    datapoints: two answers with status 200 whose lists of datapoints are
    permutations of each other give the same result. *)
Theorem get_insights_total_any_order u metric tok w w' r r' days days' :
  network w (requests_made w) (insights_request u metric tok) = Ret r ->
  network w' (requests_made w') (insights_request u metric tok) = Ret r' ->
  status_code r = 200 ->
  status_code r' = 200 ->
  insights_data r = Ret (PList days) ->
  insights_data r' = Ret (PList days') ->
  Permutation days days' ->
  Forall (fun day => exists z, datapoint day z) days ->
  fst (get_insights_total u metric tok w)
  = fst (get_insights_total u metric tok w').
Proof.
  intros Hnet Hnet' Hcode Hcode' Hdata Hdata' Hperm Hall.
  rewrite (get_insights_total_answered _ _ _ _ _ Hnet), Hcode, Hdata.
  rewrite (get_insights_total_answered _ _ _ _ _ Hnet'), Hcode', Hdata'.
  simpl. now apply sum_values_permutation.
Qed.

Lemma get_insights_total_five_and_three :
  fst (get_insights_total Scenario.article "all_views" Scenario.token
         (Scenario.fresh (Scenario.always Scenario.three_and_five)))
  = fst (get_insights_total Scenario.article "all_views" Scenario.token
           (Scenario.fresh (Scenario.always Sample.five_and_three))).
Proof.
  apply (get_insights_total_any_order
           Scenario.article "all_views" Scenario.token
           (Scenario.fresh (Scenario.always Scenario.three_and_five))
           (Scenario.fresh (Scenario.always Sample.five_and_three))
           Scenario.three_and_five Sample.five_and_three
           [PDict [("value", PStr "3")]; PDict [("value", PStr "5")]]
           [PDict [("value", PStr "5")]; PDict [("value", PStr "3")]]).
  - reflexivity.
  - reflexivity.
  - reflexivity.
  - reflexivity.
  - reflexivity.
  - reflexivity.
  - apply perm_swap.
  - repeat apply Forall_cons; try apply Forall_nil.
    + exists 3, (PStr "3"). split; reflexivity.
    + exists 5, (PStr "5"). split; reflexivity.
Defined.

(** ** More on the token exchanges *)

Lemma split_not_empty sep s : split sep s <> [].
Proof.
  destruct s as [|c s]; simpl; [discriminate|].
  destruct (Ascii.eqb c sep); [discriminate|].
  destruct (split sep s); discriminate.
Qed.

Lemma split_with_separator sep body :
  In sep (list_ascii_of_string body) ->
  exists first second rest, split sep body = first :: second :: rest.
Proof.
  induction body as [|c body IH]; simpl; [intros []|].
  intros Hin. destruct (Ascii.eqb_spec c sep) as [->|Hc].
  - destruct (split sep body) as [|second rest] eqn:Hsplit.
    + now apply split_not_empty in Hsplit.
    + now exists EmptyString, second, rest.
  - destruct Hin as [Hin|Hin]; [contradiction|].
    destruct (IH Hin) as (first & second & rest & ->).
    now exists (String c first), second, rest.
Qed.

(** X5: the first exchange finds a token field exactly when the body holds
    an ['='] somewhere: any such body is read as carrying a token, whatever
    stands before the ['='], and only a body without ['='] is refused, with
    [IndexError]. *)
Theorem token_field_accepts body :
  (In "="%char (list_ascii_of_string body) ->
   exists user_token, token_field body = Ret user_token)
  /\ (~ In "="%char (list_ascii_of_string body) ->
      token_field body = Raise IndexError).
Proof.
  split; [|apply token_field_without_equals].
  intros Hin. unfold token_field.
  destruct (split_with_separator _ _ Hin) as (first & second & rest & ->).
  simpl. destruct (split "&"%char second) as [|piece pieces] eqn:Hsplit.
  - now apply split_not_empty in Hsplit.
  - now exists piece.
Qed.

Lemma token_field_accepts_error_body :
  exists user_token, token_field "error=denied" = Ret user_token.
Proof.
  apply (proj1 (token_field_accepts "error=denied")).
  simpl. right. right. right. right. right. now left.
Defined.

Lemma append_empty s : (s ++ "")%string = s.
Proof. induction s as [|c s IH]; simpl; [reflexivity|now rewrite IH]. Qed.

Lemma split_append sep a s :
  ~ In sep (list_ascii_of_string a) ->
  split sep (a ++ s)
  = match split sep s with
    | piece :: rest => (a ++ piece) :: rest
    | [] => [a]
    end.
Proof.
  induction a as [|c a IH]; simpl; intros Hsep.
  - destruct (split sep s) eqn:Hs; [now apply split_not_empty in Hs|].
    reflexivity.
  - destruct (Ascii.eqb_spec c sep) as [->|_].
    + exfalso. apply Hsep. now left.
    + rewrite IH by (intros Hin; apply Hsep; now right).
      now destruct (split sep s).
Qed.

Lemma split_at_separator sep a s :
  ~ In sep (list_ascii_of_string a) ->
  split sep (a ++ String sep s) = a :: split sep s.
Proof.
  intros Hsep. rewrite (split_append _ _ _ Hsep). simpl.
  rewrite Ascii.eqb_refl. now rewrite append_empty.
Qed.

(** X6: the token is read back from a form-encoded body: from
    [key=token] followed by nothing or by [&more], the first exchange
    returns [token], provided the key holds no ['='] and the token neither
    ['='] nor ['&']. *)
Theorem token_field_form_encoded key user_token more :
  ~ In "="%char (list_ascii_of_string key) ->
  ~ In "="%char (list_ascii_of_string user_token) ->
  ~ In "&"%char (list_ascii_of_string user_token) ->
  token_field (key ++ String "="%char user_token) = Ret user_token
  /\ token_field (key ++ String "="%char (user_token ++ String "&"%char more))
     = Ret user_token.
Proof.
  intros Hkey Heq Hamp. unfold token_field. split.
  - rewrite (split_at_separator _ _ _ Hkey).
    rewrite (split_without_separator _ _ Heq). simpl.
    now rewrite (split_without_separator _ _ Hamp).
  - rewrite (split_at_separator _ _ _ Hkey).
    rewrite (split_append _ _ _ Heq).
    destruct (split "="%char (String "&"%char more)) as [|piece rest] eqn:Hs.
    + now apply split_not_empty in Hs.
    + simpl in Hs. simpl.
      destruct (split "="%char more) as [|p ps]; injection Hs as <- <-;
        simpl; now rewrite (split_at_separator _ _ _ Hamp).
Qed.

Lemma token_field_access_token :
  token_field ("access_token" ++ String "="%char "abc") = Ret "abc"
  /\ token_field ("access_token"
                    ++ String "="%char ("abc" ++ String "&"%char "expires=5"))
     = Ret "abc".
Proof.
  apply (token_field_form_encoded "access_token" "abc" "expires=5");
    intros H; simpl in H;
    repeat (destruct H as [H|H]; [discriminate H|]); exact H.
Defined.

(** Whatever the network does, the first exchange sends one request. *)
Lemma get_long_lived_user_token_requests w :
  requests_made (snd (get_long_lived_user_token w))
  = (requests_made w ++ [user_token_request w])%list.
Proof.
  destruct (network w (requests_made w) (user_token_request w))
    as [r|e] eqn:Hnet.
  - rewrite (get_long_lived_user_token_answered _ _ Hnet). simpl.
    destruct (token_field (text r)) as [t|[]]; reflexivity.
  - unfold get_long_lived_user_token, bind, print, environ_get,
      requests_get.
    unfold user_token_request, oauth_request, getenv in *. simpl in *.
    rewrite Hnet. reflexivity.
Qed.

Lemma get_page_access_token_with_row w token_row :
  find_one "type" (PStr "page_token") (credentials w) = Some token_row ->
  get_page_access_token w
  = (getitem "token" (PDict token_row), printed getting w).
Proof.
  intros Hrow.
  unfold get_page_access_token, bind, print, credentials_find_one, lift.
  cbn [printed credentials]. rewrite Hrow. reflexivity.
Qed.

(** What a run without a cached row can do to the world: it sends one or
    two requests, leaves the insights table alone, and appends at most one
    row to the credentials table. *)
Lemma get_page_access_token_without_row w :
  find_one "type" (PStr "page_token") (credentials w) = None ->
  fbia (snd (get_page_access_token w)) = fbia w
  /\ (credentials (snd (get_page_access_token w)) = credentials w
      \/ exists kept,
           credentials (snd (get_page_access_token w))
           = (credentials w ++ [kept])%list)
  /\ exists new,
       requests_made (snd (get_page_access_token w))
       = (requests_made w ++ new)%list
       /\ (List.length new <= 2)%nat.
Proof.
  intros Hrow.
  destruct (get_page_access_token w) as [o w'] eqn:Hrun. simpl.
  revert Hrun.
  unfold get_page_access_token, bind at 1 2, print at 1,
    credentials_find_one.
  cbn [printed credentials]. rewrite Hrow.
  unfold bind at 1 2, print at 1.
  set (w0 := printed _ (printed _ w)).
  pose proof (get_long_lived_user_token_requests w0) as Hsent.
  assert (Hkeep : same_tables w0 (snd (get_long_lived_user_token w0)))
    by same_tables_with related_get_long_lived_user_token.
  destruct (get_long_lived_user_token w0) as [[user_token|e] w1];
    simpl in Hsent, Hkeep; destruct Hkeep as [Hc Hf].
  - unfold bind, requests_get.
    destruct (network w1 (requests_made w1) (page_token_request user_token))
      as [r2|e].
    + unfold credentials_insert, store_write, try_except, bind, lift, print,
        sys_exit, raise, ret.
      destruct (obind (json r2) (getitem "access_token")) as [t|[]];
        [cbn [sent database store_log];
         destruct (database w1 (store_log w1)
                     (Insert "credentials" (page_token_row t)))
           as [kept|[]]|..];
        intros [= <- <-]; simpl; rewrite ?Hc, ?Hf, Hsent; simpl;
        (split; [reflexivity|]);
        (split; [first [now left | right; now exists kept]|]);
        eexists; (split; [now rewrite <- app_assoc|]); simpl; lia.
    + intros [= <- <-]. simpl. rewrite Hc, Hf, Hsent. simpl.
      split; [reflexivity|]. split; [now left|].
      eexists. split; [now rewrite <- app_assoc|]. simpl. lia.
  - intros [= <- <-]. rewrite Hc, Hf, Hsent. simpl.
    split; [reflexivity|]. split; [now left|].
    eexists. split; [reflexivity|]. simpl. lia.
Qed.

Lemma find_app {A} (f : A -> bool) l l' :
  find f (l ++ l')
  = match find f l with
    | Some x => Some x
    | None => find f l'
    end.
Proof.
  induction l as [|x l IH]; simpl; [reflexivity|].
  now destruct (f x).
Qed.

Lemma find_none_filter {A} (f : A -> bool) l :
  find f l = None -> filter f l = [].
Proof.
  induction l as [|x l IH]; simpl; [reflexivity|].
  destruct (f x); [discriminate|exact IH].
Qed.

(** X7: a fetched token is found again.  After a run that had no cached
    row, fetched a page token and had the store take its row, keeping the
    type page_token, the next run returns the token as the store keeps it,
    from the table: it prints its first line and sends nothing. *)
Theorem get_page_access_token_then_cached w r1 user_token r2 body page_token
  kept cached :
  find_one "type" (PStr "page_token") (credentials w) = None ->
  network w (requests_made w) (user_token_request w) = Ret r1 ->
  token_field (text r1) = Ret user_token ->
  network w (requests_made w ++ [user_token_request w])%list
          (page_token_request user_token) = Ret r2 ->
  json r2 = Ret (PDict body) ->
  lookup "access_token" body = Some page_token ->
  database w (store_log w) (Insert "credentials" (page_token_row page_token))
  = Ret kept ->
  lookup "type" kept = Some (PStr "page_token") ->
  lookup "token" kept = Some cached ->
  fst (get_page_access_token w) = Ret page_token
  /\ get_page_access_token (snd (get_page_access_token w))
     = (Ret cached, printed getting (snd (get_page_access_token w))).
Proof.
  intros Hrow Hnet1 Hfield Hnet2 Hjson Hkey Hkept Htype Htoken.
  rewrite (get_page_access_token_answered _ _ _ _ Hrow Hnet1 Hfield Hnet2).
  rewrite Hjson. simpl. rewrite Hkey. simpl. rewrite Hkept. simpl.
  split; [reflexivity|].
  rewrite (get_page_access_token_with_row _ kept).
  - unfold getitem. now rewrite Htoken.
  - simpl. unfold find_one, insert in *. rewrite find_app, Hrow. simpl.
    apply column_is_true in Htype. now rewrite Htype.
Qed.

Lemma get_page_access_token_second_run :
  fst (get_page_access_token
         (Scenario.fresh
            (Scenario.first_then Scenario.oauth_answer
                                 Scenario.page_token_answer)))
  = Ret (PStr "page")
  /\ get_page_access_token
       (snd (get_page_access_token
               (Scenario.fresh
                  (Scenario.first_then Scenario.oauth_answer
                                       Scenario.page_token_answer))))
     = (Ret (PStr "page"),
        printed getting
          (snd (get_page_access_token
                  (Scenario.fresh
                     (Scenario.first_then Scenario.oauth_answer
                                          Scenario.page_token_answer))))).
Proof.
  apply (get_page_access_token_then_cached
           (Scenario.fresh
              (Scenario.first_then Scenario.oauth_answer
                                   Scenario.page_token_answer))
           Scenario.oauth_answer "abc" Scenario.page_token_answer
           [("access_token", PStr "page")] (PStr "page")
           [("type", PStr "page_token"); ("token", PStr "page")]
           (PStr "page")).
  - reflexivity.
  - reflexivity.
  - reflexivity.
  - reflexivity.
  - reflexivity.
  - reflexivity.
  - reflexivity.
  - reflexivity.
  - reflexivity.
Defined.

(** X8: the credentials table never holds two page tokens because of this
    function: if it has at most one row of type page_token before a run,
    it has at most one after it, however the run ends. *)
Theorem get_page_access_token_one_row w :
  (List.length (page_token_rows (credentials w)) <= 1)%nat ->
  (List.length (page_token_rows (credentials (snd (get_page_access_token w))))
   <= 1)%nat.
Proof.
  intros Hone.
  destruct (find_one "type" (PStr "page_token") (credentials w))
    as [token_row|] eqn:Hrow.
  - now rewrite (get_page_access_token_with_row _ _ Hrow).
  - destruct (get_page_access_token_without_row _ Hrow)
      as (_ & [-> | [kept ->]] & _); [exact Hone|].
    unfold page_token_rows. rewrite filter_app.
    unfold find_one in Hrow. rewrite (find_none_filter _ _ Hrow).
    simpl. destruct (column_is "type" (PStr "page_token") kept); simpl; lia.
Qed.

Lemma get_page_access_token_one_row_first_run :
  (List.length
     (page_token_rows
        (credentials
           (snd (get_page_access_token
                   (Scenario.fresh
                      (Scenario.first_then Scenario.oauth_answer
                                           Scenario.page_token_answer))))))
   <= 1)%nat.
Proof.
  apply (get_page_access_token_one_row
           (Scenario.fresh
              (Scenario.first_then Scenario.oauth_answer
                                   Scenario.page_token_answer))).
  simpl. lia.
Defined.

(** X9: however a run ends, [get_page_access_token] leaves the insights
    table alone and sends at most two requests; with a cached row it sends
    none and writes nothing. *)
Theorem get_page_access_token_bounds w :
  fbia (snd (get_page_access_token w)) = fbia w
  /\ (exists new,
        requests_made (snd (get_page_access_token w))
        = (requests_made w ++ new)%list
        /\ (List.length new <= 2)%nat)
  /\ (find_one "type" (PStr "page_token") (credentials w) <> None ->
      requests_made (snd (get_page_access_token w)) = requests_made w
      /\ credentials (snd (get_page_access_token w)) = credentials w).
Proof.
  destruct (find_one "type" (PStr "page_token") (credentials w))
    as [token_row|] eqn:Hrow.
  - rewrite (get_page_access_token_with_row _ _ Hrow). simpl.
    split; [reflexivity|]. split; [|now split].
    exists []. split; [now rewrite app_nil_r|simpl; lia].
  - destruct (get_page_access_token_without_row _ Hrow)
      as (Hfbia & _ & Hsent).
    split; [exact Hfbia|]. split; [exact Hsent|]. now intros [].
Qed.

Lemma get_page_access_token_bounds_cached :
  requests_made
    (snd (get_page_access_token (Scenario.with_token Scenario.unreachable)))
  = requests_made (Scenario.with_token Scenario.unreachable)
  /\ credentials
       (snd (get_page_access_token
               (Scenario.with_token Scenario.unreachable)))
     = credentials (Scenario.with_token Scenario.unreachable).
Proof.
  apply (proj2 (proj2 (get_page_access_token_bounds
                         (Scenario.with_token Scenario.unreachable)))).
  discriminate.
Defined.

(** ** More on [get_insights] *)

Lemma unique_ids_two r1 r2 :
  lookup "id" r1 <> lookup "id" r2 -> unique_ids [r1; r2].
Proof.
  intros Hapart g. unfold rows_with_id. cbn [filter].
  destruct (column_is "id" g r1) eqn:H1, (column_is "id" g r2) eqn:H2;
    simpl; try lia.
  apply column_is_true in H1, H2. congruence.
Qed.

(** X10: the invariant of the insights table does not need the run to
    come to its end: from a table with at most one row per article ID,
    [get_insights] leaves such a table however it ends, also when it stops
    in the middle of the feed or when the store refuses a row. *)
Theorem get_insights_keeps_unique_ids parsed_feed tok w :
  unique_ids (fbia w) ->
  unique_ids (fbia (snd (get_insights parsed_feed tok w))).
Proof.
  intros Hw. destruct (get_insights_written parsed_feed tok w)
    as (_ & -> & _).
  now apply upsert_all_unique_ids.
Qed.

(** A machine that holds the articles 101 and 109 from earlier runs, 101
    with the totals 20, 30 and 40; the network fails after three requests.
    The run updates the row of 101 and stops at the second item. *)
Lemma get_insights_keeps_unique_ids_aborted :
  fst (get_insights Scenario.two_items Scenario.token
         (Sample.archive Sample.failing_after_three))
  = Raise (SystemExit 1)
  /\ fbia (snd (get_insights Scenario.two_items Scenario.token
                  (Sample.archive Sample.failing_after_three)))
     = [[("id", PInt 101); ("Headline", PStr "First");
         ("Publication date", PStr "Fri, 15 Jan 2016");
         ("Author", PStr "Staff"); ("URL", PStr "http://x/1");
         ("Total views", PInt 0); ("Average view duration", PInt 1);
         ("Average scroll depth", PInt 2)];
        [("id", PInt 109); ("Headline", PStr "Old");
         ("Publication date", PStr "Fri, 01 Jan 2016");
         ("Author", PStr "Staff"); ("URL", PStr "http://x/9");
         ("Total views", PInt 40); ("Average view duration", PInt 7);
         ("Average scroll depth", PInt 60)]]
  /\ unique_ids
       (fbia (snd (get_insights Scenario.two_items Scenario.token
                     (Sample.archive Sample.failing_after_three)))).
Proof.
  split; [reflexivity|]. split; [reflexivity|].
  apply (get_insights_keeps_unique_ids
           Scenario.two_items Scenario.token
           (Sample.archive Sample.failing_after_three)).
  apply unique_ids_two. discriminate.
Defined.

(** X11: [get_insights] never deletes.  However it ends, the credentials
    table is as before, and every article ID has at least as many rows in
    the insights table as before. *)
Theorem get_insights_never_deletes parsed_feed tok w g :
  credentials (snd (get_insights parsed_feed tok w)) = credentials w
  /\ (List.length (rows_with_id g (fbia w))
      <= List.length
           (rows_with_id g (fbia (snd (get_insights parsed_feed tok w)))))%nat.
Proof.
  destruct (get_insights_written parsed_feed tok w) as (_ & -> & Hc).
  split; [exact Hc|apply upsert_all_never_deletes].
Qed.

(** X12: an article under whose ID the store kept no row during the run
    keeps its rows exactly, however the run ends.  The ID is the one the
    store keeps, not the guid as the feed writes it: the guid ['109'] is
    kept under the integer 109. *)
Theorem get_insights_keeps_other_articles parsed_feed tok w g :
  (forall kept,
      In kept (stored_rows
                 (written_since w (snd (get_insights parsed_feed tok w)))) ->
      lookup "id" kept <> Some g) ->
  rows_with_id g (fbia (snd (get_insights parsed_feed tok w)))
  = rows_with_id g (fbia w).
Proof.
  intros Hg.
  destruct (get_insights_written parsed_feed tok w) as (_ & -> & _).
  now apply upsert_all_apart.
Qed.

Lemma get_insights_keeps_old_row :
  rows_with_id (PInt 109)
    (fbia (snd (get_insights Scenario.two_items Scenario.token
                  (Sample.archive Scenario.counting))))
  = [[("id", PInt 109); ("Headline", PStr "Old");
      ("Publication date", PStr "Fri, 01 Jan 2016");
      ("Author", PStr "Staff"); ("URL", PStr "http://x/9");
      ("Total views", PInt 40); ("Average view duration", PInt 7);
      ("Average scroll depth", PInt 60)]].
Proof.
  rewrite (get_insights_keeps_other_articles
             Scenario.two_items Scenario.token
             (Sample.archive Scenario.counting) (PInt 109)).
  - reflexivity.
  - assert (Hkept : stored_rows
                      (written_since
                         (Sample.archive Scenario.counting)
                         (snd (get_insights Scenario.two_items Scenario.token
                                 (Sample.archive Scenario.counting))))
                    = [Sample.kept_101 0 1 2; Sample.kept_102 3 4 5])
      by (vm_compute; reflexivity).
    rewrite Hkept. intros kept [<-|[<-|[]]]; discriminate.
Defined.

(** An item whose handling raises leaves the insights table as it was:
    the exception comes from a field, from a request, or from the store,
    which then stored nothing. *)
Lemma collect_item_raises tok feed_item w e :
  fst (collect_item tok feed_item w) = Raise e ->
  fbia (snd (collect_item tok feed_item w)) = fbia w.
Proof.
  destruct (collect_item tok feed_item w) as [o w'] eqn:Hrun. simpl.
  intros ->. revert Hrun.
  unfold collect_item, bind at 1, lift.
  destruct (getitem "title" feed_item) as [title|e1];
    [|now intros [= _ <-]].
  unfold bind at 1, print. set (w0 := printed _ w). unfold bind.
  assert (Hkeep : same_tables w0 (snd (insights_row feed_item tok w0)))
    by same_tables_with related_insights_row.
  destruct (insights_row feed_item tok w0) as [[new|e2] w1];
    simpl in Hkeep; destruct Hkeep as [_ Hf];
    [|intros [= _ <-]; exact Hf].
  unfold fbia_upsert, bind, store_write.
  destruct (database w1 (store_log w1) (Upsert "fbia" new ["id"]));
    [discriminate|intros [= _ <-]; exact Hf].
Qed.

(** X13: a run that stops in the middle of the feed keeps what it stored
    before.  When the items before [bad] are collected as in a run of
    their own and the handling of [bad] raises (a field is missing, a
    request fails, the store refuses the row), the run raises the same
    exception, and the insights table is the one after the earlier items:
    their rows are stored, the failing item wrote nothing, the later items
    were not reached. *)
Theorem get_insights_stops_midway parsed_feed feed_done tok w w1 done bad
  rest e :
  feed_items parsed_feed = Ret (done ++ bad :: rest)%list ->
  feed_items feed_done = Ret done ->
  get_insights feed_done tok w = (Ret tt, w1) ->
  fst (collect_item tok bad w1) = Raise e ->
  fst (get_insights parsed_feed tok w) = Raise e
  /\ fbia (snd (get_insights parsed_feed tok w)) = fbia w1
  /\ requests_made (snd (get_insights parsed_feed tok w))
     = requests_made (snd (collect_item tok bad w1)).
Proof.
  intros Hitems Hdone Hrun Hbad.
  destruct (get_insights_returns _ _ _ _ Hrun) as (l & Hl & Hloop).
  assert (l = done) by congruence. subst l.
  assert (Hfull : get_insights parsed_feed tok w
                  = (Raise e, snd (collect_item tok bad w1))).
  { unfold get_insights, bind at 1, print. unfold bind at 1, lift.
    rewrite Hitems. fold collecting. rewrite for_each_app, Hloop.
    cbn [for_each]. unfold bind.
    destruct (collect_item tok bad w1) as [[[]|e'] w2]; simpl in *;
      [discriminate|].
    now injection Hbad as ->. }
  rewrite Hfull. simpl.
  split; [reflexivity|]. split; [|reflexivity].
  exact (collect_item_raises _ _ _ _ Hbad).
Qed.

(** The article 101 followed by the article whose guid is [A1]: the row of
    101 is stored, the three totals of the second article are asked for,
    and the store refuses its row. *)
Lemma get_insights_stops_at_second_item :
  fst (get_insights Sample.numbered_and_named Scenario.token
         (Scenario.fresh Scenario.counting))
  = Raise (LibraryError "IntegrityError")
  /\ fbia (snd (get_insights Sample.numbered_and_named Scenario.token
                  (Scenario.fresh Scenario.counting)))
     = [[("id", PInt 101); ("Headline", PStr "First");
         ("Publication date", PStr "Fri, 15 Jan 2016");
         ("Author", PStr "Staff"); ("URL", PStr "http://x/1");
         ("Total views", PInt 0); ("Average view duration", PInt 1);
         ("Average scroll depth", PInt 2)]]
  /\ List.length
       (requests_made
          (snd (get_insights Sample.numbered_and_named Scenario.token
                  (Scenario.fresh Scenario.counting))))
     = 6%nat.
Proof.
  destruct (get_insights_stops_midway
              Sample.numbered_and_named
              (Scenario.feed_of (PList [Scenario.item_101]))
              Scenario.token (Scenario.fresh Scenario.counting)
              Sample.collected_first
              [Scenario.item_101] Scenario.item_a1 []
              (LibraryError "IntegrityError"))
    as (Hraised & Hfbia & _).
  - reflexivity.
  - reflexivity.
  - reflexivity.
  - reflexivity.
  - split; [exact Hraised|]. split; [|reflexivity].
    exact (eq_trans Hfbia eq_refl).
Defined.

(** X14: the fields of a feed item are all read before the first metric
    is asked for.  An item that lacks one of link, guid, title, pubDate or
    author makes its handling raise with no request sent for it and no
    row written. *)
Theorem collect_item_missing_field tok feed_item w field e :
  In field ["link"; "guid"; "title"; "pubDate"; "author"] ->
  getitem field feed_item = Raise e ->
  (exists e', fst (collect_item tok feed_item w) = Raise e')
  /\ requests_made (snd (collect_item tok feed_item w)) = requests_made w
  /\ fbia (snd (collect_item tok feed_item w)) = fbia w.
Proof.
  intros Hfield Hmissing.
  unfold collect_item, insights_row, bind, lift, print.
  destruct (getitem "title" feed_item) as [title|e1] eqn:H1; simpl;
    [|split; [now exists e1|now split]].
  destruct (getitem "link" feed_item) as [link|e2] eqn:H2; simpl;
    [|split; [now exists e2|now split]].
  destruct (getitem "guid" feed_item) as [guid|e3] eqn:H3; simpl;
    [|split; [now exists e3|now split]].
  destruct (getitem "pubDate" feed_item) as [pubDate|e4] eqn:H4; simpl;
    [|split; [now exists e4|now split]].
  destruct (getitem "author" feed_item) as [author|e5] eqn:H5; simpl;
    [|split; [now exists e5|now split]].
  exfalso. simpl in Hfield.
  destruct Hfield as [<-|[<-|[<-|[<-|[<-|[]]]]]]; congruence.
Qed.

Lemma collect_item_anonymous :
  (exists e', fst (collect_item Scenario.token Sample.anonymous_item
                     (Scenario.fresh Scenario.counting)) = Raise e')
  /\ requests_made
       (snd (collect_item Scenario.token Sample.anonymous_item
               (Scenario.fresh Scenario.counting)))
     = requests_made (Scenario.fresh Scenario.counting)
  /\ fbia (snd (collect_item Scenario.token Sample.anonymous_item
                  (Scenario.fresh Scenario.counting)))
     = fbia (Scenario.fresh Scenario.counting).
Proof.
  apply (collect_item_missing_field
           Scenario.token Sample.anonymous_item
           (Scenario.fresh Scenario.counting) "author" KeyError).
  - simpl. tauto.
  - reflexivity.
Defined.

Lemma get_insights_total_sent u metric tok w z w' :
  get_insights_total u metric tok w = (Ret z, w') ->
  requests_made w'
  = (requests_made w ++ [insights_request u metric tok])%list.
Proof.
  intros Hrun. pose proof (get_insights_total_requests u metric tok w) as H.
  now rewrite Hrun in H.
Qed.

Lemma collect_item_sent tok feed_item w w' :
  collect_item tok feed_item w = (Ret tt, w') ->
  requests_made w' = (requests_made w ++ requests_for tok feed_item)%list.
Proof.
  intros Hrun. unfold collect_item in Hrun. returns Hrun.
  apply print_returns in Ha0. subst w0.
  unfold fbia_upsert, bind, store_write in Hrun.
  destruct (database w1 (store_log w1) (Upsert "fbia" a1 ["id"]))
    as [kept|]; [|discriminate].
  injection Hrun as <-.
  unfold insights_row in Ha1. returns Ha1.
  injection Ha1 as _ <-.
  repeat match goal with
         | H : get_insights_total _ _ _ _ = (Ret _, _) |- _ =>
             apply get_insights_total_sent in H
         end.
  unfold requests_for.
  match goal with
  | H : getitem "link" feed_item = Ret _ |- _ => rewrite H
  end.
  simpl in *.
  repeat match goal with
         | H : requests_made _ = _ |- _ => rewrite H; clear H
         end.
  simpl.
  repeat match goal with
         | H : getitem "link" feed_item = Ret ?x,
           H' : getitem "link" feed_item = Ret ?y |- _ =>
             assert (x = y) by congruence; subst x; clear H
         end.
  now rewrite <- !app_assoc.
Qed.

(** X15: a run that comes to its end has sent, for each item of the feed
    in feed order, the three requests for views, view duration and scroll
    depth of its link, in that order, and nothing else. *)
Theorem get_insights_requests parsed_feed tok w w' items :
  get_insights parsed_feed tok w = (Ret tt, w') ->
  feed_items parsed_feed = Ret items ->
  requests_made w'
  = (requests_made w ++ flat_map (requests_for tok) items)%list.
Proof.
  intros Hrun Hitems.
  destruct (get_insights_returns _ _ _ _ Hrun) as (l & Hl & Hloop).
  assert (l = items) by congruence. subst l.
  change (requests_made w) with (requests_made (printed collecting w)).
  revert Hloop.
  generalize (printed collecting w).
  clear Hrun Hitems Hl.
  induction items as [|x rest IH]; intros w0 Hloop.
  - injection Hloop as <-. simpl. now rewrite app_nil_r.
  - cbn [for_each] in Hloop. returns Hloop. destruct a.
    apply collect_item_sent in Ha. rewrite (IH _ Hloop), Ha. simpl.
    now rewrite <- app_assoc.
Qed.

Lemma get_insights_requests_two_items :
  List.length (requests_made Sample.collected) = 6%nat.
Proof.
  rewrite (get_insights_requests
             Scenario.two_items Scenario.token
             (Scenario.fresh Scenario.counting) Sample.collected
             [Scenario.item_101; Scenario.item_102]).
  - reflexivity.
  - reflexivity.
  - reflexivity.
Defined.

(** ** The reporter and the whole run *)

Section Run.

Variable parse : string -> outcome pyval.
Variable freeze : table -> string.

(** What [main] does once the three stages of the collector have
    returned, according to the answer of Slack. *)
Lemma main_after_collecting s tok feed w1 w2 w3 :
  get_page_access_token (base s) = (Ret tok, w1) ->
  get_facebook_feed parse w1 = (Ret feed, w2) ->
  get_insights feed tok w2 = (Ret tt, w3) ->
  main parse freeze s
  = let u := report_of freeze s w3 in
    let s1 := written "fbia.csv" (freeze (fbia w3))
                (with_base (printed pushing (printed writing w3)) s) in
    match slack s (uploads s) u with
    | Uploaded =>
        (Ret tt,
         with_base (printed finished (printed pushing (printed writing w3)))
                   (uploaded u s1))
    | SlackError message =>
        (Raise (SystemExit 1),
         with_base (printed {| format := slack_error_message;
                               args := [PStr message] |}
                            (printed pushing (printed writing w3)))
                   (uploaded u s1))
    | SlackFailure e => (Raise e, uploaded u s1)
    end.
Proof.
  intros Htoken Hfeed Hinsights.
  unfold main, pbind at 1, in_world at 1. rewrite Htoken.
  cbn [fst snd]. unfold pbind at 1, in_world at 1.
  cbn [base with_base]. rewrite Hfeed.
  cbn [fst snd]. unfold pbind at 1, in_world at 1.
  cbn [base with_base]. rewrite Hinsights.
  cbn [fst snd]. unfold pbind, in_world, dataset_freeze,
    post_insights_to_slack, strftime_today, slack_files_upload, pbind,
    in_world, pret, print, sys_exit, raise.
  cbn [fst snd base with_base written files today slack uploads].
  rewrite lookup_dict_set_same.
  unfold report_of.
  change (fbia (printed {| format := "- Writing results to CSV";
                           args := [] |} w3)) with (fbia w3).
  destruct (slack s (uploads s)
              (report_upload "fbia.csv" (freeze (fbia w3)) ["C0KF7RARL"]
                             (today s))); reflexivity.
Qed.






(** X18: a run whose three stages return and whose upload Slack takes
    comes to its end: the file fbia.csv holds the export of the whole
    insights table, the same text went to Slack, and the last lines
    printed are the two progress lines and Done!. *)
Theorem main_completes s tok feed w1 w2 w3 :
  get_page_access_token (base s) = (Ret tok, w1) ->
  get_facebook_feed parse w1 = (Ret feed, w2) ->
  get_insights feed tok w2 = (Ret tt, w3) ->
  slack s (uploads s) (report_of freeze s w3) = Uploaded ->
  fst (main parse freeze s) = Ret tt
  /\ lookup "fbia.csv" (files (snd (main parse freeze s)))
     = Some (freeze (fbia w3))
  /\ uploads (snd (main parse freeze s))
     = (uploads s ++ [report_of freeze s w3])%list
  /\ fbia (base (snd (main parse freeze s))) = fbia w3
  /\ stdout (base (snd (main parse freeze s)))
     = (stdout w3 ++ [writing; pushing; finished])%list.
Proof.
  intros Htoken Hfeed Hinsights Hslack.
  rewrite (main_after_collecting _ _ _ _ _ _ Htoken Hfeed Hinsights).
  cbv zeta. rewrite Hslack. simpl.
  split; [reflexivity|]. split; [apply lookup_dict_set_same|].
  split; [reflexivity|]. split; [reflexivity|].
  now rewrite <- !app_assoc.
Qed.

(** X19: when Slack refuses the upload with an error, the run prints the
    error and leaves through [sys.exit(1)] without printing Done!, but
    what it had done stays: the insights table keeps the new totals and
    the file fbia.csv holds their export. *)
Theorem main_slack_refuses s tok feed w1 w2 w3 message :
  get_page_access_token (base s) = (Ret tok, w1) ->
  get_facebook_feed parse w1 = (Ret feed, w2) ->
  get_insights feed tok w2 = (Ret tt, w3) ->
  slack s (uploads s) (report_of freeze s w3) = SlackError message ->
  fst (main parse freeze s) = Raise (SystemExit 1)
  /\ fbia (base (snd (main parse freeze s))) = fbia w3
  /\ lookup "fbia.csv" (files (snd (main parse freeze s)))
     = Some (freeze (fbia w3))
  /\ stdout (base (snd (main parse freeze s)))
     = (stdout w3
        ++ [writing; pushing;
            {| format := slack_error_message; args := [PStr message] |}])%list.
Proof.
  intros Htoken Hfeed Hinsights Hslack.
  rewrite (main_after_collecting _ _ _ _ _ _ Htoken Hfeed Hinsights).
  cbv zeta. rewrite Hslack. simpl.
  split; [reflexivity|]. split; [reflexivity|].
  split; [apply lookup_dict_set_same|].
  now rewrite <- !app_assoc.
Qed.


End Run.


Example main_fails_fast_store :
  credentials
    (base (snd (main (Scenario.reads_as Sample.numbered_and_named) Sample.csv
                  (Sample.site Sample.first_run Uploaded))))
  = [[("type", PStr "page_token"); ("token", PStr "page")]]
  /\ fbia
       (base (snd (main (Scenario.reads_as Sample.numbered_and_named)
                     Sample.csv (Sample.site Sample.first_run Uploaded))))
     = [[("id", PInt 101); ("Headline", PStr "First");
         ("Publication date", PStr "Fri, 15 Jan 2016");
         ("Author", PStr "Staff"); ("URL", PStr "http://x/1");
         ("Total views", PInt 3); ("Average view duration", PInt 4);
         ("Average scroll depth", PInt 5)]].
Proof. split; vm_compute; reflexivity. Qed.

(** The export of the first whole run, as [Sample.csv] writes it. *)
Example first_run_export :
  Sample.csv
    [[("id", PInt 101); ("Headline", PStr "First");
      ("Publication date", PStr "Fri, 15 Jan 2016");
      ("Author", PStr "Staff"); ("URL", PStr "http://x/1");
      ("Total views", PInt 3); ("Average view duration", PInt 4);
      ("Average scroll depth", PInt 5)];
     [("id", PInt 102); ("Headline", PStr "Second");
      ("Publication date", PStr "Sat, 16 Jan 2016");
      ("Author", PStr "Staff"); ("URL", PStr "http://x/2");
      ("Total views", PInt 6); ("Average view duration", PInt 7);
      ("Average scroll depth", PInt 8)]]
  = Sample.first_report.
Proof. vm_compute. reflexivity. Qed.

Lemma main_completes_first_run :
  fst (main (Scenario.reads_as Scenario.two_items) Sample.csv
         (Sample.site Sample.first_run Uploaded))
  = Ret tt
  /\ lookup "fbia.csv"
       (files (snd (main (Scenario.reads_as Scenario.two_items) Sample.csv
                      (Sample.site Sample.first_run Uploaded))))
     = Some Sample.first_report
  /\ uploads (snd (main (Scenario.reads_as Scenario.two_items) Sample.csv
                     (Sample.site Sample.first_run Uploaded)))
     = [{| up_file := "fbia.csv";
           up_content := Sample.first_report;
           up_channels := ["C0KF7RARL"];
           up_filetype := "csv";
           up_title := "Facebook Insights report for Jan 15, 2016";
           up_comment := report_comment |}]
  /\ fbia (base (snd (main (Scenario.reads_as Scenario.two_items) Sample.csv
                         (Sample.site Sample.first_run Uploaded))))
     = [[("id", PInt 101); ("Headline", PStr "First");
         ("Publication date", PStr "Fri, 15 Jan 2016");
         ("Author", PStr "Staff"); ("URL", PStr "http://x/1");
         ("Total views", PInt 3); ("Average view duration", PInt 4);
         ("Average scroll depth", PInt 5)];
        [("id", PInt 102); ("Headline", PStr "Second");
         ("Publication date", PStr "Sat, 16 Jan 2016");
         ("Author", PStr "Staff"); ("URL", PStr "http://x/2");
         ("Total views", PInt 6); ("Average view duration", PInt 7);
         ("Average scroll depth", PInt 8)]]
  /\ stdout (base (snd (main (Scenario.reads_as Scenario.two_items)
                           Sample.csv
                           (Sample.site Sample.first_run Uploaded))))
     = [getting; fetching; exchanging; Sample.feed_line; collecting;
        item_line (PStr "First"); item_line (PStr "Second");
        writing; pushing; finished].
Proof.
  destruct (main_completes
              (Scenario.reads_as Scenario.two_items) Sample.csv
              (Sample.site Sample.first_run Uploaded)
              (PStr "page") Scenario.two_items
              Sample.token_fetched Sample.feed_fetched
              Sample.insights_collected)
    as (Hdone & Hfile & Hupload & Hrows & Hlines).
  - reflexivity.
  - reflexivity.
  - reflexivity.
  - reflexivity.
  - split; [exact Hdone|].
    split; [rewrite Hfile; vm_compute; reflexivity|].
    split; [rewrite Hupload; vm_compute; reflexivity|].
    split; [rewrite Hrows; reflexivity|].
    rewrite Hlines. reflexivity.
Defined.

Lemma main_slack_refuses_first_run :
  fst (main (Scenario.reads_as Scenario.two_items) Sample.csv
         (Sample.site Sample.first_run (SlackError "channel_not_found")))
  = Raise (SystemExit 1)
  /\ fbia (base (snd (main (Scenario.reads_as Scenario.two_items)
                         Sample.csv
                         (Sample.site Sample.first_run
                            (SlackError "channel_not_found")))))
     = [[("id", PInt 101); ("Headline", PStr "First");
         ("Publication date", PStr "Fri, 15 Jan 2016");
         ("Author", PStr "Staff"); ("URL", PStr "http://x/1");
         ("Total views", PInt 3); ("Average view duration", PInt 4);
         ("Average scroll depth", PInt 5)];
        [("id", PInt 102); ("Headline", PStr "Second");
         ("Publication date", PStr "Sat, 16 Jan 2016");
         ("Author", PStr "Staff"); ("URL", PStr "http://x/2");
         ("Total views", PInt 6); ("Average view duration", PInt 7);
         ("Average scroll depth", PInt 8)]]
  /\ lookup "fbia.csv"
       (files (snd (main (Scenario.reads_as Scenario.two_items) Sample.csv
                      (Sample.site Sample.first_run
                         (SlackError "channel_not_found")))))
     = Some Sample.first_report
  /\ stdout (base (snd (main (Scenario.reads_as Scenario.two_items)
                           Sample.csv
                           (Sample.site Sample.first_run
                              (SlackError "channel_not_found")))))
     = [getting; fetching; exchanging; Sample.feed_line; collecting;
        item_line (PStr "First"); item_line (PStr "Second");
        writing; pushing;
        {| format := slack_error_message;
           args := [PStr "channel_not_found"] |}].
Proof.
  destruct (main_slack_refuses
              (Scenario.reads_as Scenario.two_items) Sample.csv
              (Sample.site Sample.first_run (SlackError "channel_not_found"))
              (PStr "page") Scenario.two_items
              Sample.token_fetched Sample.feed_fetched
              Sample.insights_collected "channel_not_found")
    as (Hexit & Hrows & Hfile & Hlines).
  - reflexivity.
  - reflexivity.
  - reflexivity.
  - reflexivity.
  - split; [exact Hexit|].
    split; [rewrite Hrows; reflexivity|].
    split; [rewrite Hfile; vm_compute; reflexivity|].
    rewrite Hlines. reflexivity.
Defined.
